(** * tinyDFPlayer v1.2 : a shallow embedding of the ATtiny85 firmware

    The sketch [tinyDFPlayer_v1.2.ino] drives a DFPlayer mini, an OLED, a
    potentiometer and three buttons from an ATtiny85.  Its global variables
    become one record, [State]; the peripherals it writes to (decoder, OLED,
    EEPROM, watchdog sleep) are recorded as a chronological [trace] of
    commands; the values it reads (ADC conversions, decoder notifications)
    are input queues carried by the same record.

    Code that only writes is a state transformer [State -> State]; code that
    takes ADC conversions lives in the monad [M], whose failure [None] means
    that the run needs a conversion the queue does not hold (which is also how
    a wait loop that never sees its exit condition ends up).

    Machine integers are [Z] with the wrap-around written out.  On the AVR
    [int] has 16 bits, so [uint16_t] arithmetic is unsigned 16-bit arithmetic
    and is not promoted to a wider signed type. *)

From Stdlib Require Import ZArith List Bool Lia.
Import ListNotations.
Open Scope Z_scope.

(** ** Machine integers *)

Definition to_uint8 (z : Z) : Z := z mod 256.
Definition to_uint16 (z : Z) : Z := z mod 65536.
Definition to_uint32 (z : Z) : Z := z mod 4294967296.

(** Arduino's [constrain(amt, low, high)] macro. *)
Definition constrain (amt low high : Z) : Z :=
  if amt <? low then low else if amt >? high then high else amt.

(** ** Constants of the sketch *)

Definition NEXT : Z := 552.
Definition OK : Z := 712.
Definition PREV : Z := 790.

Definition BRIGHT : Z := 127.
Definition DIMM : Z := 50.

(** Analog pins; [getAnalog] and [denoiseAnalog] only use them to select the
    ADC channel. *)
Inductive Pin := POTIPIN | BUTTONS.

(** ** The collaborators *)

(** What the decoder answers to the two queries the sketch sends, and whether
    its start-up handshake succeeds.  The answers are C [int]s. *)
Record DFPlayer := mkDFPlayer {
  begin_ok : bool;
  readFolderCounts : Z;
  readFileCountsInFolder : Z -> Z
}.

(** Type of a decoder notification, as far as [loop] looks at it. *)
Inductive PlayerType := DFPlayerPlayFinished | DFPlayerOther (code : Z).

(** The frames the sketch draws.  [StatusScreen] carries the numbers printed by
    [updateOLED]; its last field is [None] for the text "< Pause >" and
    [Some v] for "Volume: v". *)
Inductive Screen :=
| StartScreen
| ErrorScreen
| EmptyScreen
| StatusScreen (folder foldercounts file filecounts batlevel : Z)
               (right : option Z).

Inductive Command :=
| PlayerSetTimeOut (ms : Z)
| PlayerVolume (v : Z)
| PlayerPlayFolder (folder file : Z)
| PlayerPause
| PlayerStart
| PlayerSleep
| PlayerReadFolderCounts
| PlayerReadFileCountsInFolder (folder : Z)
| OledSetContrast (level : Z)
| OledFrame (scr : Screen)
| EepromWrite (addr value : Z)
| Sleep.

(** A command sent to the decoder (as opposed to the OLED, the EEPROM or the
    watchdog sleep). *)
Definition is_player_command (c : Command) : bool :=
  match c with
  | PlayerSetTimeOut _ | PlayerVolume _ | PlayerPlayFolder _ _
  | PlayerPause | PlayerStart | PlayerSleep
  | PlayerReadFolderCounts | PlayerReadFileCountsInFolder _ => true
  | _ => false
  end.


(** ** The state *)

Record State := mkState {
  filecounts : Z;       (* uint8_t  *)
  foldercounts : Z;     (* uint8_t  *)
  batlevel : Z;         (* uint8_t  *)
  volume : Z;           (* uint8_t  *)
  folder : Z;           (* uint8_t  *)
  file : Z;             (* uint8_t  *)
  pause : bool;         (* boolean  *)
  batcounter : Z;       (* uint16_t *)
  lastpoti : Z;         (* uint16_t *)
  EEPROM : Z -> Z;      (* the cells of the EEPROM *)
  ADC : list Z;         (* results of the conversions still to come *)
  player_in : list (option (PlayerType * Z));
                        (* what the decoder reports at the polls to come *)
  trace : list Command  (* commands issued so far, oldest first *)
}.

Definition set_filecounts (v : Z) (s : State) : State :=
  mkState v (foldercounts s) (batlevel s) (volume s) (folder s) (file s)
          (pause s) (batcounter s) (lastpoti s) (EEPROM s) (ADC s)
          (player_in s) (trace s).
Definition set_foldercounts (v : Z) (s : State) : State :=
  mkState (filecounts s) v (batlevel s) (volume s) (folder s) (file s)
          (pause s) (batcounter s) (lastpoti s) (EEPROM s) (ADC s)
          (player_in s) (trace s).
Definition set_batlevel (v : Z) (s : State) : State :=
  mkState (filecounts s) (foldercounts s) v (volume s) (folder s) (file s)
          (pause s) (batcounter s) (lastpoti s) (EEPROM s) (ADC s)
          (player_in s) (trace s).
Definition set_volume (v : Z) (s : State) : State :=
  mkState (filecounts s) (foldercounts s) (batlevel s) v (folder s) (file s)
          (pause s) (batcounter s) (lastpoti s) (EEPROM s) (ADC s)
          (player_in s) (trace s).
Definition set_folder (v : Z) (s : State) : State :=
  mkState (filecounts s) (foldercounts s) (batlevel s) (volume s) v (file s)
          (pause s) (batcounter s) (lastpoti s) (EEPROM s) (ADC s)
          (player_in s) (trace s).
Definition set_file (v : Z) (s : State) : State :=
  mkState (filecounts s) (foldercounts s) (batlevel s) (volume s) (folder s) v
          (pause s) (batcounter s) (lastpoti s) (EEPROM s) (ADC s)
          (player_in s) (trace s).
Definition set_pause (v : bool) (s : State) : State :=
  mkState (filecounts s) (foldercounts s) (batlevel s) (volume s) (folder s)
          (file s) v (batcounter s) (lastpoti s) (EEPROM s) (ADC s)
          (player_in s) (trace s).
Definition set_batcounter (v : Z) (s : State) : State :=
  mkState (filecounts s) (foldercounts s) (batlevel s) (volume s) (folder s)
          (file s) (pause s) v (lastpoti s) (EEPROM s) (ADC s)
          (player_in s) (trace s).
Definition set_lastpoti (v : Z) (s : State) : State :=
  mkState (filecounts s) (foldercounts s) (batlevel s) (volume s) (folder s)
          (file s) (pause s) (batcounter s) v (EEPROM s) (ADC s)
          (player_in s) (trace s).
Definition set_EEPROM (v : Z -> Z) (s : State) : State :=
  mkState (filecounts s) (foldercounts s) (batlevel s) (volume s) (folder s)
          (file s) (pause s) (batcounter s) (lastpoti s) v (ADC s)
          (player_in s) (trace s).
Definition set_ADC (v : list Z) (s : State) : State :=
  mkState (filecounts s) (foldercounts s) (batlevel s) (volume s) (folder s)
          (file s) (pause s) (batcounter s) (lastpoti s) (EEPROM s) v
          (player_in s) (trace s).
Definition set_player_in (v : list (option (PlayerType * Z))) (s : State)
  : State :=
  mkState (filecounts s) (foldercounts s) (batlevel s) (volume s) (folder s)
          (file s) (pause s) (batcounter s) (lastpoti s) (EEPROM s) (ADC s)
          v (trace s).
Definition set_trace (v : list Command) (s : State) : State :=
  mkState (filecounts s) (foldercounts s) (batlevel s) (volume s) (folder s)
          (file s) (pause s) (batcounter s) (lastpoti s) (EEPROM s) (ADC s)
          (player_in s) v.

(** Issue a command to a peripheral. *)
Definition emit (c : Command) (s : State) : State :=
  set_trace (trace s ++ [c]) s.

(** The globals as the C start-up code leaves them, over the given EEPROM
    contents and inputs. *)
Definition power_on (eeprom : Z -> Z) (adc : list Z)
           (events : list (option (PlayerType * Z))) : State :=
  mkState 0 0 0 20 1 1 false 0 0 eeprom adc events [].

(** ** The monad of code that takes ADC conversions *)

Definition M (A : Type) : Type := State -> option (A * State).

Definition ret {A} (a : A) : M A := fun s => Some (a, s).

Definition bind {A B} (m : M A) (k : A -> M B) : M B :=
  fun s => match m s with
           | Some (a, s') => k a s'
           | None => None
           end.

(** Run a state transformer. *)
Definition exec (f : State -> State) : M unit := fun s => Some (tt, f s).

(** An infinite loop without exit. *)
Definition forever {A} : M A := fun _ => None.

Declare Scope fw_scope.
Delimit Scope fw_scope with fw.
Notation "x <- m ;; k" := (bind m (fun x => k))
  (at level 61, m at next level, right associativity) : fw_scope.
Notation "m ;; k" := (bind m (fun _ => k))
  (at level 61, right associativity) : fw_scope.
Open Scope fw_scope.

(** [while (cond) body;] for a condition that takes at least one conversion
    each time it is evaluated: the queue of conversions bounds the number of
    rounds, so the fuel below is never what stops the loop. *)
Fixpoint while_fuel (fuel : nat) (cond : M bool) (body : M unit) : M unit :=
  match fuel with
  | O => forever
  | S n => b <- cond ;; if b then body ;; while_fuel n cond body else ret tt
  end.

Definition while_adc (cond : M bool) (body : M unit) : M unit :=
  fun s => while_fuel (S (length (ADC s))) cond body s.

(** ** Sleep *)

(** [sleep()]: power down until the watchdog fires. *)
Definition sleep (s : State) : State := emit Sleep s.

(** ** ADC functions *)

(** One conversion in ADC noise-reduction sleep; the value of the [ADC]
    register afterwards. *)
Definition sample_ADC : M Z :=
  fun s => match ADC s with
           | [] => None
           | v :: rest => Some (v, set_ADC rest s)
           end.

(** [getAnalog(port)] *)
Definition getAnalog (port : Pin) : M Z :=
  result <- sample_ADC ;;
  ret result.

(** The body of the [for] loop of [denoiseAnalog], [n] rounds of it. *)
Fixpoint denoise_rounds (n : nat) (result : Z) : M Z :=
  match n with
  | O => ret result
  | S n' => v <- sample_ADC ;; denoise_rounds n' (to_uint16 (result + v))
  end.

(** [denoiseAnalog(port)] *)
Definition denoiseAnalog (port : Pin) : M Z :=
  result <- denoise_rounds 8 0 ;;
  ret (Z.shiftr result 3).

(** [getBatLevel()].  For a conversion result of 0 the C division is
    undefined; the statements below are about results from 1 to 1023. *)
Definition getBatLevel : M Z :=
  vcc <- sample_ADC ;;
  let vcc := to_uint32 (1125300 / vcc) in
  let vcc := constrain vcc 3200 4100 in
  let result := to_uint8 (to_uint32 (vcc - 3200) / 9) in
  ret result.

Definition gets {A} (f : State -> A) : M A := fun s => Some (f s, s).

(** ** EEPROM *)

(** [EEPROM.read(addr)] returns a byte. *)
Definition EEPROM_read (addr : Z) (s : State) : Z := to_uint8 (EEPROM s addr).

(** [EEPROM.write(addr, value)] *)
Definition EEPROM_write (addr value : Z) (s : State) : State :=
  emit (EepromWrite addr value)
       (set_EEPROM (fun a => if a =? addr then value else EEPROM s a) s).

(** [EEPROM.update(addr, value)]: writes only when the cell differs. *)
Definition EEPROM_update (addr value : Z) (s : State) : State :=
  if EEPROM_read addr s =? value then s else EEPROM_write addr value s.

(** ** Display functions *)

(** What [updateOLED] prints: header, "Folder: x of y", "File: x of y",
    "Bat: n%" and either "< Pause >" or "Volume: v". *)
Definition status_screen (s : State) : Screen :=
  StatusScreen (folder s) (foldercounts s) (file s) (filecounts s)
               (batlevel s) (if pause s then None else Some (volume s)).

(** [updateOLED()]: one full frame with the current values. *)
Definition updateOLED (s : State) : State :=
  emit (OledFrame (status_screen s)) s.

(** [checkBatLevel()] *)
Definition checkBatLevel : M unit :=
  level <- getBatLevel ;;
  exec (set_batlevel level) ;;
  (if level =? 0 then
     exec (emit (OledSetContrast DIMM)) ;;
     exec (emit (OledFrame EmptyScreen)) ;;
     exec (fun s => if negb (pause s) then emit PlayerPause s else s) ;;
     while_adc (l <- getBatLevel ;; ret (l <? 10)) (exec sleep) ;;
     exec (emit (OledSetContrast BRIGHT)) ;;
     l <- getBatLevel ;;
     exec (set_batlevel l) ;;
     exec (fun s => if negb (pause s) then emit PlayerStart s else s)
   else ret tt) ;;
  exec updateOLED ;;
  exec (set_batcounter 600).

(** ** Button events *)

Inductive ButtonEvent := Previous | Next | OkToggle | NoButton.

(** The test [(buttons < (REF + 20)) && (buttons > (REF - 20))] of [loop]. *)
Definition in_window (ref buttons : Z) : bool :=
  (buttons <? ref + 20) && (buttons >? ref - 20).

(** The event a raw sample stands for in [loop]: the first of the three
    window tests, in the order of the source, that the sample passes below
    the idle level. *)
Definition button_event (buttons : Z) : ButtonEvent :=
  if buttons <? 1000 then
    if in_window PREV buttons then Previous
    else if in_window NEXT buttons then Next
    else if in_window OK buttons then OkToggle
    else NoButton
  else NoButton.

(** The classification as the specification words it, with closed windows
    [770,810], [692,732] and [532,572]; to be compared with [button_event]. *)
Definition readButtons_spec (buttons : Z) : ButtonEvent :=
  if (770 <=? buttons) && (buttons <=? 810) then Previous
  else if (692 <=? buttons) && (buttons <=? 732) then OkToggle
  else if (532 <=? buttons) && (buttons <=? 572) then Next
  else NoButton.

(** The hysteresis test of [loop] on the potentiometer, in [uint16_t]
    arithmetic: [(getpoti < (lastpoti - 8)) || (getpoti > (lastpoti + 8))]. *)
Definition poti_moved (lastpoti getpoti : Z) : bool :=
  (getpoti <? to_uint16 (lastpoti - 8)) || (getpoti >? to_uint16 (lastpoti + 8)).

(** Commands issued between two states of one run. *)
Definition issued (s s' : State) : list Command :=
  skipn (length (trace s)) (trace s').

(** The arithmetic of [getBatLevel] on one conversion result. *)
Definition bat_percent (adc : Z) : Z :=
  let vcc := to_uint32 (1125300 / adc) in
  let vcc := constrain vcc 3200 4100 in
  to_uint8 (to_uint32 (vcc - 3200) / 9).

(** Sum of a list of readings. *)
Definition sum_readings (l : list Z) : Z := fold_right Z.add 0 l.

(** What every state of a run satisfies: either the folder is within
    [foldercounts] or the file is 1, and the file count is not negative. *)
Definition session_inv (s : State) : Prop :=
  (folder s <= foldercounts s \/ file s = 1) /\ 0 <= filecounts s.

(** The typing of the session variables: [folder] and [file] are bytes. *)
Definition bytes_ok (s : State) : Prop :=
  0 <= folder s < 256 /\ 0 <= file s < 256.

Section Firmware.

Variable card : DFPlayer.

(** ** DFPlayer mini functions *)

(** [filecounts = tinyPlayer.readFileCountsInFolder(folder);] *)
Definition refresh_filecounts (s : State) : State :=
  set_filecounts (to_uint8 (readFileCountsInFolder card (folder s)))
                 (emit (PlayerReadFileCountsInFolder (folder s)) s).

(** [startFolderPlay()] *)
Definition startFolderPlay (s : State) : State :=
  let s := if folder s >? foldercounts s
           then refresh_filecounts (set_file 1 (set_folder 1 s))
           else s in
  let s := if file s >? filecounts s then set_file 1 s else s in
  let s := emit (PlayerPlayFolder (folder s) (file s)) s in
  let s := set_pause false s in
  let s := updateOLED s in
  let s := EEPROM_update 1 (file s) s in
  EEPROM_update 2 (folder s) s.

(** ** The sections of [loop] *)

(** A finished track: [file++; startFolderPlay();] *)
Definition track_finished (s : State) : State :=
  startFolderPlay (set_file (to_uint8 (file s + 1)) s).

(** "check player status" *)
Definition check_player (s : State) : State :=
  match player_in s with
  | [] => s
  | None :: rest => set_player_in rest s
  | Some (type, value) :: rest =>
      let s := set_player_in rest s in
      match type with
      | DFPlayerPlayFinished => track_finished s
      | DFPlayerOther _ => s
      end
  end.

(** "get, debounce and set volume", after the sample is taken. *)
Definition track_poti (getpoti : Z) (s : State) : State :=
  let s := if poti_moved (lastpoti s) getpoti
           then set_lastpoti getpoti s else s in
  let getvol := to_uint8 (lastpoti s / 34) in
  if negb (getvol =? volume s)
  then updateOLED (emit (PlayerVolume getvol) (set_volume getvol s))
  else s.

Definition check_poti : M unit :=
  getpoti <- denoiseAnalog POTIPIN ;;
  exec (track_poti getpoti).

(** The three button branches. *)
Definition press_prev (s : State) : State :=
  let s := if folder s <? foldercounts s
           then set_folder (to_uint8 (folder s + 1)) s
           else set_folder 1 s in
  let s := refresh_filecounts s in
  let s := set_file 1 s in
  startFolderPlay s.

Definition press_next (s : State) : State :=
  startFolderPlay (set_file (to_uint8 (file s + 1)) s).

Definition press_ok (s : State) : State :=
  let s := set_pause (negb (pause s)) s in
  let s := if pause s then emit PlayerPause s else emit PlayerStart s in
  updateOLED s.

(** The three [if]s of "check buttons", one after the other as in the
    source. *)
Definition dispatch_buttons (buttons : Z) (s : State) : State :=
  let s := if in_window PREV buttons then press_prev s else s in
  let s := if in_window NEXT buttons then press_next s else s in
  let s := if in_window OK buttons then press_ok s else s in
  s.

(** What [loop] does on each event, to be compared with
    [dispatch_buttons]. *)
Definition handle (e : ButtonEvent) (s : State) : State :=
  match e with
  | Previous => press_prev s
  | Next => press_next s
  | OkToggle => press_ok s
  | NoButton => s
  end.

(** "check buttons" *)
Definition check_buttons : M unit :=
  buttons <- getAnalog BUTTONS ;;
  if buttons <? 1000 then
    exec (dispatch_buttons buttons) ;;
    while_adc (b <- getAnalog BUTTONS ;; ret (b <? 1000)) (ret tt)
  else ret tt.

(** "check battery level every now and then" *)
Definition check_battery : M unit :=
  exec (fun s => set_batcounter (to_uint16 (batcounter s - 1)) s) ;;
  c <- gets batcounter ;;
  if c =? 0 then checkBatLevel else ret tt.

(** [loop()] *)
Definition loop : M unit :=
  exec check_player ;;
  check_poti ;;
  check_buttons ;;
  check_battery ;;
  exec sleep.

(** [setup()] *)
Definition setup : M unit :=
  exec (emit (OledSetContrast BRIGHT)) ;;
  exec (emit (OledFrame StartScreen)) ;;
  if negb (begin_ok card) then
    exec (emit (OledFrame ErrorScreen)) ;;
    exec (emit (OledSetContrast DIMM)) ;;
    exec (emit PlayerSleep) ;;
    forever
  else
    checkBatLevel ;;
    exec (fun s => if EEPROM_read 0 s =? 55
                   then set_folder (EEPROM_read 2 s)
                                   (set_file (EEPROM_read 1 s) s)
                   else EEPROM_write 0 55 s) ;;
    exec (emit (PlayerSetTimeOut 500)) ;;
    exec (fun s => emit (PlayerVolume (volume s)) s) ;;
    exec (fun s => set_foldercounts (to_uint8 (readFolderCounts card))
                                    (emit PlayerReadFolderCounts s)) ;;
    exec refresh_filecounts ;;
    exec startFolderPlay.

(** ** Reachable states, by program point *)

Inductive Point := LoopTop | PotiCheck | ButtonCheck | BatteryCheck | SleepCall.

Inductive reach : Point -> State -> Prop :=
| reach_setup eeprom adc events s :
    setup (power_on eeprom adc events) = Some (tt, s) ->
    reach LoopTop s
| reach_player s :
    reach LoopTop s -> reach PotiCheck (check_player s)
| reach_poti s s' :
    reach PotiCheck s -> check_poti s = Some (tt, s') ->
    reach ButtonCheck s'
| reach_buttons s s' :
    reach ButtonCheck s -> check_buttons s = Some (tt, s') ->
    reach BatteryCheck s'
| reach_battery s s' :
    reach BatteryCheck s -> check_battery s = Some (tt, s') ->
    reach SleepCall s'
| reach_sleep s :
    reach SleepCall s -> reach LoopTop (sleep s).

(** The session coordinates are inside the media: the range the data model
    gives to [folder] and [file]. *)
Definition session_in_range (s : State) : Prop :=
  1 <= folder s <= foldercounts s /\ 1 <= file s <= filecounts s.

End Firmware.

(** ** Concrete media and power-on states used in the examples *)

(** A card with one folder that holds 255 files, the documented maximum. *)
Definition card_full : DFPlayer := mkDFPlayer true 1 (fun _ => 255).

(** A card without folders. *)
Definition card_empty : DFPlayer := mkDFPlayer true 0 (fun _ => 0).

(** A card with three folders of five files each. *)
Definition card_three : DFPlayer := mkDFPlayer true 3 (fun _ => 5).

(** An erased EEPROM. *)
Definition eeprom_blank : Z -> Z := fun _ => 255.

(** An EEPROM in which an earlier session left track 255 of folder 1. *)
Definition eeprom_255 : Z -> Z :=
  fun a => if a =? 0 then 55 else if a =? 1 then 255 else if a =? 2 then 1
           else 255.

(** Power-on with a battery at 61 % (conversion result 300) on [card_full]
    with [eeprom_255]; the decoder reports the end of the track at the first
    poll. *)
Definition boot_255_finished : State :=
  power_on eeprom_255 [300] [Some (DFPlayerPlayFinished, 255)].

(** The same, without a notification; the potentiometer reads 680 eight
    times, then the button rail reads 552 (the Next level) once and is idle
    (1023) at the next sample. *)
Definition boot_255_next : State :=
  power_on eeprom_255
           [300; 680; 680; 680; 680; 680; 680; 680; 680; 552; 1023] [].

(** Power-on with a battery at 61 % and an erased EEPROM. *)
Definition boot_blank : State := power_on eeprom_blank [300] [].

(** The state a run of [m] from [s0] ends in ([s0] when it does not end). *)
Definition run (m : M unit) (s0 : State) : State :=
  match m s0 with
  | Some (_, s) => s
  | None => s0
  end.

(** After [setup] on the full card with track 255 in the EEPROM. *)
Definition loop_top_255 : State := run (setup card_full) boot_255_finished.

(** At the button check of the first round of [loop], same card and
    EEPROM. *)
Definition button_check_255 : State :=
  run check_poti (check_player card_full (run (setup card_full) boot_255_next)).

(** After [setup] on the card without folders. *)
Definition loop_top_empty : State := run (setup card_empty) boot_blank.

(** Power-on with a battery at 61 %, an erased EEPROM and the potentiometer
    near its lower end: eight conversions of 5 in the first round of [loop],
    eight of 6 in the second, the button rail idle (1023) in both. *)
Definition boot_poti : State :=
  power_on eeprom_blank
           [300; 5; 5; 5; 5; 5; 5; 5; 5; 1023; 6; 6; 6; 6; 6; 6; 6; 6; 1023]
           [].

Definition loop_top_poti : State := run (setup card_three) boot_poti.

(** ** Rounds of [loop] *)

(** [n] rounds of [loop], one after the other. *)
Fixpoint loops (card : DFPlayer) (n : nat) : M unit :=
  match n with
  | O => ret tt
  | S n' => loop card ;; loops card n'
  end.

(** What the Arduino core runs: [setup()] once, then [loop()] again and
    again; here up to the end of round [n]. *)
Definition firmware (card : DFPlayer) (n : nat) : M unit :=
  setup card ;; loops card n.

(** What holds of the session in every state of a run: folder and file are
    bytes, the two counts are what the card answers for the current folder,
    the pair is normalized, and the EEPROM holds the marker and the pair. *)
Definition run_inv (card : DFPlayer) (s : State) : Prop :=
  bytes_ok s /\
  foldercounts s = to_uint8 (readFolderCounts card) /\
  filecounts s = to_uint8 (readFileCountsInFolder card (folder s)) /\
  (folder s <= foldercounts s \/ (folder s = 1 /\ file s = 1)) /\
  (file s <= filecounts s \/ file s = 1) /\
  EEPROM_read 0 s = 55 /\
  EEPROM_read 1 s = file s /\
  EEPROM_read 2 s = folder s.

(** The same with the range of the battery counter. *)
Definition full_inv (card : DFPlayer) (s : State) : Prop :=
  run_inv card s /\ 1 <= batcounter s <= 600.

(** A volume command carries a level the decoder accepts. *)
Definition volume_in_range (c : Command) : Prop :=
  match c with
  | PlayerVolume v => 0 <= v <= 30
  | _ => True
  end.

(** The conversions still to come are 10-bit values. *)
Definition adc_10bit (s : State) : Prop :=
  Forall (fun v => 0 <= v <= 1023) (ADC s).

(** What a run keeps about the volume when its conversions are 10-bit
    values: the tracked potentiometer value is a 10-bit value, the volume is
    between 0 and 30, and so is every volume sent to the decoder. *)
Definition volume_inv (s : State) : Prop :=
  adc_10bit s /\
  0 <= lastpoti s <= 1023 /\
  0 <= volume s <= 30 /\
  Forall volume_in_range (trace s).

(** Partial correctness of code in [M]: from a state in [P], a result [a]
    and a final state [s'] satisfy [Q a s']. *)
Definition hoare {A} (P : State -> Prop) (m : M A)
           (Q : A -> State -> Prop) : Prop :=
  forall s a s', P s -> m s = Some (a, s') -> Q a s'.

(** ** The text of the status frame *)

From Stdlib Require String DecimalString.

Module Display.

Import String.
Local Open Scope string_scope.

(** [oled.print(n)] for an unsigned number: its decimal digits. *)
Definition print_number (n : Z) : string :=
  DecimalString.NilZero.string_of_uint (N.to_uint (Z.to_N n)).

Definition Header : string := "-( Tiny MP3 Player )-".

(** [printDigits(digits)] *)
Definition printDigits (digits : Z) : string :=
  (if (digits <? 100)%Z then " " else "")
  ++ (if (digits <? 10)%Z then " " else "")
  ++ print_number digits.

(** [printBatLevel()] *)
Definition printBatLevel (s : State) : string :=
  "Bat:" ++ printDigits (batlevel s) ++ "%".

(** The text [updateOLED] prints, as (column in pixels, row, text) from each
    [setCursor] on. *)
Definition updateOLED_text (s : State) : list (Z * Z * string) :=
  [ (0, 0, Header);
    (0, 1, "Folder:    " ++ printDigits (folder s) ++ " of "
           ++ printDigits (foldercounts s));
    (0, 2, "File:      " ++ printDigits (file s) ++ " of "
           ++ printDigits (filecounts s));
    (0, 3, printBatLevel s);
    (66, 3, if pause s then " < Pause >"
            else "Volume:" ++ printDigits (volume s)) ].

End Display.

(** * Properties *)

(** ** Setters and traces *)

Lemma issued_app (s s' : State) (cmds : list Command) :
  trace s' = trace s ++ cmds -> issued s s' = cmds.
Proof.
  intros E. unfold issued. rewrite E.
  rewrite skipn_app, skipn_all, Nat.sub_diag. reflexivity.
Qed.

Lemma sample_ADC_cons (v : Z) (rest : list Z) (s : State) :
  ADC s = v :: rest -> sample_ADC s = Some (v, set_ADC rest s).
Proof. intros E. unfold sample_ADC. rewrite E. reflexivity. Qed.

Lemma sample_ADC_inv (s s' : State) (v : Z) :
  sample_ADC s = Some (v, s') -> ADC s = v :: ADC s' /\ s' = set_ADC (ADC s') s.
Proof.
  unfold sample_ADC. destruct (ADC s) as [|x rest] eqn:E; [discriminate|].
  intros H. injection H as -> <-. split; reflexivity.
Qed.

(** ** The ADC functions *)

Lemma sum_readings_bounds (l : list Z) :
  Forall (fun v => 0 <= v <= 1023) l ->
  0 <= sum_readings l <= 1023 * Z.of_nat (length l).
Proof.
  induction 1 as [|v l Hv _ IH]; simpl sum_readings; simpl length.
  - lia.
  - rewrite Nat2Z.inj_succ. lia.
Qed.

Lemma denoise_rounds_exact (readings : list Z) :
  forall (result : Z) (rest : list Z) (s : State),
    Forall (fun v => 0 <= v <= 1023) readings ->
    0 <= result ->
    result + 1023 * Z.of_nat (length readings) < 65536 ->
    ADC s = readings ++ rest ->
    denoise_rounds (length readings) result s
    = Some (result + sum_readings readings, set_ADC rest s).
Proof.
  induction readings as [|v l IH]; intros result rest s Hall Hres Hfit Hadc.
  - simpl in *. unfold ret. rewrite Z.add_0_r. f_equal. f_equal.
    destruct s; simpl in *. subst. reflexivity.
  - inversion Hall as [|? ? Hv Hl]; subst.
    simpl length in *. rewrite Nat2Z.inj_succ in Hfit.
    pose proof (sum_readings_bounds l Hl) as Hsum.
    simpl denoise_rounds. unfold bind at 1.
    rewrite (sample_ADC_cons v (l ++ rest) s Hadc).
    assert (Hw : to_uint16 (result + v) = result + v).
    { unfold to_uint16. apply Z.mod_small. lia. }
    rewrite Hw.
    rewrite (IH (result + v) rest (set_ADC (l ++ rest) s)); try lia; auto.
    simpl sum_readings. f_equal. f_equal. lia.
Qed.

(** C10.  On eight readings between 0 and 1023, [denoiseAnalog] returns the
    floor of their mean: the 16-bit accumulator ends at their exact sum, which
    is at most 8184 and so never wraps, and shifting it right by 3 is the
    division by 8. *)
Theorem denoiseAnalog_mean (port : Pin) (readings rest : list Z) (s : State) :
  length readings = 8%nat ->
  Forall (fun v => 0 <= v <= 1023) readings ->
  ADC s = readings ++ rest ->
  denoise_rounds 8 0 s = Some (sum_readings readings, set_ADC rest s) /\
  0 <= sum_readings readings <= 8184 /\
  sum_readings readings < 65536 /\
  Z.shiftr (sum_readings readings) 3 = sum_readings readings / 8 /\
  denoiseAnalog port s = Some (sum_readings readings / 8, set_ADC rest s).
Proof.
  intros Hlen Hall Hadc.
  pose proof (sum_readings_bounds readings Hall) as Hb. rewrite Hlen in Hb.
  assert (Hrun : denoise_rounds 8 0 s
                 = Some (sum_readings readings, set_ADC rest s)).
  { rewrite <- Hlen.
    rewrite (denoise_rounds_exact readings 0 rest s Hall); try lia; auto. }
  assert (Hshift : Z.shiftr (sum_readings readings) 3
                   = sum_readings readings / 8).
  { rewrite Z.shiftr_div_pow2 by lia. reflexivity. }
  repeat split; try lia; auto.
  unfold denoiseAnalog, bind. rewrite Hrun. unfold ret. rewrite Hshift.
  reflexivity.
Qed.

Lemma denoiseAnalog_mean_witness :
  denoiseAnalog POTIPIN
    (power_on (fun _ => 255) [1023; 1023; 1023; 1023; 1023; 1023; 1023; 1020; 7]
              [])
  = Some (1022, power_on (fun _ => 255) [7] []).
Proof.
  exact (proj2 (proj2 (proj2 (proj2
    (denoiseAnalog_mean POTIPIN
       [1023; 1023; 1023; 1023; 1023; 1023; 1023; 1020] [7]
       (power_on (fun _ => 255)
                 [1023; 1023; 1023; 1023; 1023; 1023; 1023; 1020; 7] [])
       eq_refl
       ltac:(repeat constructor; lia)
       eq_refl))))).
Defined.

(** ** The battery level *)

Lemma getBatLevel_cons (r : Z) (rest : list Z) (s : State) :
  ADC s = r :: rest -> getBatLevel s = Some (bat_percent r, set_ADC rest s).
Proof.
  intros E. unfold getBatLevel, bind. rewrite (sample_ADC_cons r rest s E).
  reflexivity.
Qed.

Lemma constrain_bounds (amt low high : Z) :
  low <= high -> low <= constrain amt low high <= high.
Proof.
  intros H. unfold constrain.
  destruct (amt <? low) eqn:E1; [lia|].
  destruct (amt >? high) eqn:E2; lia.
Qed.

Lemma bat_percent_exact (R : Z) :
  1 <= R <= 1023 ->
  bat_percent R = (constrain (1125300 / R) 3200 4100 - 3200) / 9.
Proof.
  intros HR. unfold bat_percent.
  assert (Hq : 0 <= 1125300 / R <= 1125300).
  { split.
    - apply Z.div_pos; lia.
    - apply Z.div_le_upper_bound; nia. }
  assert (H32 : to_uint32 (1125300 / R) = 1125300 / R).
  { unfold to_uint32. apply Z.mod_small. lia. }
  cbv zeta. rewrite H32.
  pose proof (constrain_bounds (1125300 / R) 3200 4100 ltac:(lia)) as Hc.
  set (mV := constrain (1125300 / R) 3200 4100) in *.
  assert (H32' : to_uint32 (mV - 3200) = mV - 3200).
  { unfold to_uint32. apply Z.mod_small. lia. }
  rewrite H32'.
  assert (Hp : 0 <= (mV - 3200) / 9 <= 100).
  { split.
    - apply Z.div_pos; lia.
    - apply Z.div_le_upper_bound; lia. }
  unfold to_uint8. apply Z.mod_small. lia.
Qed.

(** C5.  For a conversion result [R] from 1 to 1023, [getBatLevel] returns
    [(mV - 3200) / 9] where [mV] is [1125300 / R] clamped to [3200, 4100];
    that is 0 when [mV] is 3200, 100 when [mV] is 4100, and always between 0
    and 100. *)
Theorem getBatLevel_percent (R : Z) (rest : list Z) (s : State) :
  1 <= R <= 1023 ->
  ADC s = R :: rest ->
  let mV := constrain (1125300 / R) 3200 4100 in
  getBatLevel s = Some ((mV - 3200) / 9, set_ADC rest s) /\
  3200 <= mV <= 4100 /\
  0 <= (mV - 3200) / 9 <= 100 /\
  (mV = 3200 -> (mV - 3200) / 9 = 0) /\
  (mV = 4100 -> (mV - 3200) / 9 = 100).
Proof.
  intros HR Hadc mV.
  pose proof (constrain_bounds (1125300 / R) 3200 4100 ltac:(lia)) as Hc.
  fold mV in Hc.
  split.
  - rewrite (getBatLevel_cons R rest s Hadc).
    rewrite (bat_percent_exact R HR). reflexivity.
  - split; [exact Hc|]. split.
    + split.
      * apply Z.div_pos; lia.
      * apply Z.div_le_upper_bound; lia.
    + split; intros ->; reflexivity.
Qed.

Lemma getBatLevel_percent_witness :
  getBatLevel (power_on (fun _ => 255) [300; 12] [])
  = Some (61, power_on (fun _ => 255) [12] []).
Proof.
  exact (proj1 (getBatLevel_percent 300 [12]
                  (power_on (fun _ => 255) [300; 12] [])
                  ltac:(lia) eq_refl)).
Defined.

(** ** Tactics for the case analysis of the sketch's tests *)

Ltac step_if :=
  match goal with
  | |- context [if ?c then _ else _] =>
      lazymatch c with
      | context [if _ then _ else _] => fail
      | _ => destruct c eqn:?
      end
  end.

Ltac reflect_hyps :=
  repeat match goal with
  | H : (_ >? _) = true |- _ => apply Z.gtb_lt in H
  | H : (_ >? _) = false |- _ => rewrite Z.gtb_ltb in H; apply Z.ltb_ge in H
  | H : (_ <? _) = true |- _ => apply Z.ltb_lt in H
  | H : (_ <? _) = false |- _ => apply Z.ltb_ge in H
  | H : (_ =? _) = true |- _ => apply Z.eqb_eq in H
  | H : (_ =? _) = false |- _ => apply Z.eqb_neq in H
  | H : (_ <=? _) = true |- _ => apply Z.leb_le in H
  | H : (_ <=? _) = false |- _ => apply Z.leb_gt in H
  | H : (_ && _) = true |- _ => apply andb_true_iff in H; destruct H
  | H : (_ || _) = false |- _ => apply orb_false_iff in H; destruct H
  | H : negb _ = true |- _ => apply negb_true_iff in H
  | H : negb _ = false |- _ => apply negb_false_iff in H
  end.

(** ** What the EEPROM and display primitives leave alone *)

Create Rewrite HintDb fw.

Ltac frame_update :=
  intros; unfold EEPROM_update; step_if; reflexivity.

Lemma folder_EEPROM_update a v s : folder (EEPROM_update a v s) = folder s.
Proof. frame_update. Qed.
Lemma file_EEPROM_update a v s : file (EEPROM_update a v s) = file s.
Proof. frame_update. Qed.
Lemma filecounts_EEPROM_update a v s :
  filecounts (EEPROM_update a v s) = filecounts s.
Proof. frame_update. Qed.
Lemma foldercounts_EEPROM_update a v s :
  foldercounts (EEPROM_update a v s) = foldercounts s.
Proof. frame_update. Qed.
Lemma batlevel_EEPROM_update a v s :
  batlevel (EEPROM_update a v s) = batlevel s.
Proof. frame_update. Qed.
Lemma volume_EEPROM_update a v s : volume (EEPROM_update a v s) = volume s.
Proof. frame_update. Qed.
Lemma pause_EEPROM_update a v s : pause (EEPROM_update a v s) = pause s.
Proof. frame_update. Qed.
Lemma lastpoti_EEPROM_update a v s :
  lastpoti (EEPROM_update a v s) = lastpoti s.
Proof. frame_update. Qed.
Lemma batcounter_EEPROM_update a v s :
  batcounter (EEPROM_update a v s) = batcounter s.
Proof. frame_update. Qed.
Lemma ADC_EEPROM_update a v s : ADC (EEPROM_update a v s) = ADC s.
Proof. frame_update. Qed.
Lemma player_in_EEPROM_update a v s :
  player_in (EEPROM_update a v s) = player_in s.
Proof. frame_update. Qed.

Lemma trace_EEPROM_update a v s :
  trace (EEPROM_update a v s)
  = trace s ++ (if EEPROM_read a s =? v then [] else [EepromWrite a v]).
Proof.
  unfold EEPROM_update. step_if.
  - rewrite app_nil_r. reflexivity.
  - reflexivity.
Qed.

Lemma EEPROM_read_update_other a b v s :
  a <> b -> EEPROM_read a (EEPROM_update b v s) = EEPROM_read a s.
Proof.
  intros Hab. unfold EEPROM_update. step_if; [reflexivity|].
  unfold EEPROM_read, EEPROM_write. cbn.
  destruct (Z.eqb_spec a b); [contradiction|reflexivity].
Qed.

Lemma EEPROM_read_update_same a v s :
  0 <= v < 256 -> EEPROM_read a (EEPROM_update a v s) = v.
Proof.
  intros Hv. unfold EEPROM_update. step_if; reflect_hyps; [assumption|].
  unfold EEPROM_read, EEPROM_write. cbn. rewrite Z.eqb_refl.
  unfold to_uint8. apply Z.mod_small. lia.
Qed.

#[local] Hint Rewrite folder_EEPROM_update file_EEPROM_update
  filecounts_EEPROM_update foldercounts_EEPROM_update batlevel_EEPROM_update
  volume_EEPROM_update pause_EEPROM_update lastpoti_EEPROM_update
  batcounter_EEPROM_update ADC_EEPROM_update player_in_EEPROM_update
  trace_EEPROM_update : fw.

(** ** [startFolderPlay] field by field *)

Section StartFolderPlay.

Variable card : DFPlayer.

Ltac sfp_field :=
  intros; unfold startFolderPlay; cbv zeta; autorewrite with fw;
  unfold updateOLED, status_screen, refresh_filecounts, emit; cbn;
  repeat (step_if; cbn in * ); try reflexivity.

Lemma startFolderPlay_folder s :
  folder (startFolderPlay card s)
  = if folder s >? foldercounts s then 1 else folder s.
Proof. sfp_field. Qed.

Lemma startFolderPlay_file s :
  file (startFolderPlay card s)
  = if folder s >? foldercounts s then 1
    else if file s >? filecounts s then 1 else file s.
Proof. sfp_field. Qed.

Lemma startFolderPlay_filecounts s :
  filecounts (startFolderPlay card s)
  = if folder s >? foldercounts s
    then to_uint8 (readFileCountsInFolder card 1) else filecounts s.
Proof. sfp_field. Qed.

Lemma startFolderPlay_foldercounts s :
  foldercounts (startFolderPlay card s) = foldercounts s.
Proof. sfp_field. Qed.

Lemma startFolderPlay_pause s : pause (startFolderPlay card s) = false.
Proof. sfp_field. Qed.

Lemma startFolderPlay_volume s :
  volume (startFolderPlay card s) = volume s.
Proof. sfp_field. Qed.

Lemma startFolderPlay_batlevel s :
  batlevel (startFolderPlay card s) = batlevel s.
Proof. sfp_field. Qed.

Lemma startFolderPlay_ADC s : ADC (startFolderPlay card s) = ADC s.
Proof. sfp_field. Qed.

Lemma startFolderPlay_trace s :
  let s' := startFolderPlay card s in
  trace s'
  = trace s
    ++ (if folder s >? foldercounts s
        then [PlayerReadFileCountsInFolder 1] else [])
    ++ [PlayerPlayFolder (folder s') (file s');
        OledFrame (status_screen s')]
    ++ (if EEPROM_read 1 s =? file s' then [] else [EepromWrite 1 (file s')])
    ++ (if EEPROM_read 2 s =? folder s' then [] else [EepromWrite 2 (folder s')]).
Proof.
  intros s'. subst s'.
  unfold status_screen.
  rewrite startFolderPlay_folder, startFolderPlay_file,
    startFolderPlay_filecounts, startFolderPlay_foldercounts,
    startFolderPlay_batlevel, startFolderPlay_volume, startFolderPlay_pause.
  unfold startFolderPlay; cbv zeta. autorewrite with fw.
  rewrite EEPROM_read_update_other by lia.
  unfold updateOLED, status_screen, refresh_filecounts, emit, EEPROM_read. cbn.
  destruct (folder s >? foldercounts s); cbn.
  - destruct (1 >? to_uint8 (readFileCountsInFolder card 1)); cbn;
      repeat rewrite <- app_assoc; reflexivity.
  - destruct (file s >? filecounts s); cbn;
      repeat rewrite <- app_assoc; reflexivity.
Qed.

End StartFolderPlay.

(** ** The claims on [startFolderPlay] *)

Lemma startFolderPlay_issued (card : DFPlayer) (s : State) :
  let s' := startFolderPlay card s in
  issued s s'
  = (if folder s >? foldercounts s
     then [PlayerReadFileCountsInFolder 1] else [])
    ++ [PlayerPlayFolder (folder s') (file s');
        OledFrame (status_screen s')]
    ++ (if EEPROM_read 1 s =? file s' then [] else [EepromWrite 1 (file s')])
    ++ (if EEPROM_read 2 s =? folder s' then [] else [EepromWrite 2 (folder s')]).
Proof.
  intros s'. apply issued_app. apply startFolderPlay_trace.
Qed.

(** C2.  When [folder] exceeds [foldercounts], [startFolderPlay] sets folder
    and file to 1 and reads the file count of folder 1 afresh; otherwise, when
    [file] exceeds [filecounts], it sets file to 1 and keeps the folder (and
    the file count). *)
Theorem startFolderPlay_normalizes (card : DFPlayer) (s : State) :
  (folder s > foldercounts s ->
   folder (startFolderPlay card s) = 1 /\
   file (startFolderPlay card s) = 1 /\
   filecounts (startFolderPlay card s)
   = to_uint8 (readFileCountsInFolder card 1) /\
   In (PlayerReadFileCountsInFolder 1) (issued s (startFolderPlay card s))) /\
  (folder s <= foldercounts s -> file s > filecounts s ->
   file (startFolderPlay card s) = 1 /\
   folder (startFolderPlay card s) = folder s /\
   filecounts (startFolderPlay card s) = filecounts s /\
   ~ In (PlayerReadFileCountsInFolder 1) (issued s (startFolderPlay card s))).
Proof.
  split.
  - intros Hgt.
    pose proof (startFolderPlay_issued card s) as Hi. cbv zeta in Hi.
    rewrite Hi.
    rewrite startFolderPlay_folder, startFolderPlay_file,
      startFolderPlay_filecounts.
    destruct (folder s >? foldercounts s) eqn:E; reflect_hyps; [|lia].
    repeat split. left. reflexivity.
  - intros Hle Hgt.
    pose proof (startFolderPlay_issued card s) as Hi. cbv zeta in Hi.
    rewrite Hi.
    rewrite startFolderPlay_folder, startFolderPlay_file,
      startFolderPlay_filecounts.
    destruct (folder s >? foldercounts s) eqn:E1; reflect_hyps; [lia|].
    destruct (file s >? filecounts s) eqn:E2; reflect_hyps; [|lia].
    repeat split.
    intros Hin. cbn in Hin.
    destruct Hin as [Hin|[Hin|Hin]]; try discriminate.
    apply in_app_or in Hin. destruct Hin as [Hin|Hin].
    + destruct (EEPROM_read 1 s =? 1); cbn in Hin;
        [contradiction | destruct Hin as [Hin|[]]; discriminate].
    + destruct (EEPROM_read 2 s =? folder s); cbn in Hin;
        [contradiction | destruct Hin as [Hin|[]]; discriminate].
Qed.

Lemma startFolderPlay_normalizes_witness :
  (let s := set_folder 4 (set_foldercounts 3 (set_file 9 boot_blank)) in
   folder (startFolderPlay card_three s) = 1 /\
   file (startFolderPlay card_three s) = 1 /\
   filecounts (startFolderPlay card_three s) = 5) /\
  (let s := set_folder 2 (set_foldercounts 3
              (set_file 6 (set_filecounts 5 boot_blank))) in
   file (startFolderPlay card_three s) = 1 /\
   folder (startFolderPlay card_three s) = 2).
Proof.
  split; intros s.
  - destruct (proj1 (startFolderPlay_normalizes card_three s))
      as (H1 & H2 & H3 & _).
    + cbn. lia.
    + repeat split; assumption.
  - destruct (proj2 (startFolderPlay_normalizes card_three s))
      as (H1 & H2 & _).
    + cbn. lia.
    + cbn. lia.
    + split; assumption.
Defined.

(** C1, amended.  After every call of [startFolderPlay], from any state:
    the folder is at most [foldercounts] when there is at least one folder,
    the file is at most the file count (as refreshed by the call) when that is
    at least one, each of folder and file is either what it was or 1, and a
    folder or file that was at least 1 on entry still is.  The call never
    changes [foldercounts].  A folder above [foldercounts] on entry resets
    folder and file to 1 and reads the file count of folder 1 afresh;
    otherwise the folder and the file count stay, a file above the file count
    resets the file to 1 and a file within it stays.  The play command of the
    call is the one for the folder and file it leaves. *)
Theorem startFolderPlay_bounds (card : DFPlayer) (s : State) :
  let s' := startFolderPlay card s in
  (1 <= foldercounts s' -> folder s' <= foldercounts s') /\
  (1 <= filecounts s' -> file s' <= filecounts s') /\
  (folder s' = folder s \/ folder s' = 1) /\
  (file s' = file s \/ file s' = 1) /\
  (1 <= folder s -> 1 <= folder s') /\
  (1 <= file s -> 1 <= file s') /\
  foldercounts s' = foldercounts s /\
  (folder s > foldercounts s ->
   folder s' = 1 /\ file s' = 1 /\
   filecounts s' = to_uint8 (readFileCountsInFolder card 1)) /\
  (folder s <= foldercounts s ->
   folder s' = folder s /\ filecounts s' = filecounts s /\
   (file s > filecounts s -> file s' = 1) /\
   (file s <= filecounts s -> file s' = file s)) /\
  filter is_player_command (issued s s')
  = (if folder s >? foldercounts s
     then [PlayerReadFileCountsInFolder 1] else [])
    ++ [PlayerPlayFolder (folder s') (file s')].
Proof.
  intros s'.
  assert (Hplay : filter is_player_command (issued s s')
                  = (if folder s >? foldercounts s
                     then [PlayerReadFileCountsInFolder 1] else [])
                    ++ [PlayerPlayFolder (folder s') (file s')]).
  { pose proof (startFolderPlay_issued card s) as Hi. cbv zeta in Hi.
    fold s' in Hi. rewrite Hi. clearbody s'.
    repeat step_if; reflexivity. }
  revert Hplay. generalize (filter is_player_command (issued s s')).
  intros l Hplay. subst s'.
  rewrite startFolderPlay_folder, startFolderPlay_file,
    startFolderPlay_filecounts, startFolderPlay_foldercounts in *.
  destruct (folder s >? foldercounts s) eqn:E1; reflect_hyps.
  - repeat match goal with
           | |- _ /\ _ => split
           | |- _ -> _ => intro
           end; try lia; auto.
  - destruct (file s >? filecounts s) eqn:E2; reflect_hyps;
      repeat match goal with
             | |- _ /\ _ => split
             | |- _ -> _ => intro
             end; try lia; auto.
Qed.

Lemma startFolderPlay_bounds_witness :
  let s := set_folder 4 (set_foldercounts 3 (set_file 9 boot_blank)) in
  folder (startFolderPlay card_three s) <= 3 /\
  file (startFolderPlay card_three s) <= 5 /\
  1 <= folder (startFolderPlay card_three s) /\
  1 <= file (startFolderPlay card_three s) /\
  folder (startFolderPlay card_three s) = 1 /\
  file (startFolderPlay card_three s) = 1 /\
  filecounts (startFolderPlay card_three s) = 5.
Proof.
  intros s.
  destruct (startFolderPlay_bounds card_three s)
    as (H1 & H2 & _ & _ & H5 & H6 & _ & H8 & _).
  destruct H8 as (R1 & R2 & R3); [vm_compute; reflexivity|].
  refine (conj _ (conj _ (conj _ (conj _ (conj R1 (conj R2 R3)))))).
  - apply H1. vm_compute. discriminate.
  - apply H2. vm_compute. discriminate.
  - apply H5. vm_compute. discriminate.
  - apply H6. vm_compute. discriminate.
Defined.

Lemma startFolderPlay_persisted (card : DFPlayer) (s : State) :
  bytes_ok s ->
  EEPROM_read 1 (startFolderPlay card s) = file (startFolderPlay card s) /\
  EEPROM_read 2 (startFolderPlay card s) = folder (startFolderPlay card s).
Proof.
  intros [Hfo Hfi].
  assert (Hfo' : 0 <= folder (startFolderPlay card s) < 256).
  { rewrite startFolderPlay_folder. step_if; lia. }
  assert (Hfi' : 0 <= file (startFolderPlay card s) < 256).
  { rewrite startFolderPlay_file. repeat step_if; lia. }
  revert Hfo' Hfi'.
  unfold startFolderPlay; cbv zeta. autorewrite with fw.
  intros Hfo' Hfi'. split.
  - rewrite EEPROM_read_update_other by lia.
    rewrite EEPROM_read_update_same by (autorewrite with fw; exact Hfi').
    autorewrite with fw. reflexivity.
  - rewrite EEPROM_read_update_same by (autorewrite with fw; exact Hfo').
    autorewrite with fw. reflexivity.
Qed.





(** ** The two wait loops *)

Lemma set_ADC_self (s : State) : set_ADC (ADC s) s = s.
Proof. destruct s; reflexivity. Qed.

Lemma while_fuel_S (n : nat) (cond : M bool) (body : M unit) (s : State) :
  while_fuel (S n) cond body s
  = match cond s with
    | Some (true, s1) =>
        match body s1 with
        | Some (_, s2) => while_fuel n cond body s2
        | None => None
        end
    | Some (false, s1) => Some (tt, s1)
    | None => None
    end.
Proof.
  simpl. unfold bind. destruct (cond s) as [[[|] s1]|]; reflexivity.
Qed.

Lemma release_test (s : State) :
  (b <- getAnalog BUTTONS ;; ret (b <? 1000)) s
  = match ADC s with
    | [] => None
    | v :: rest => Some (v <? 1000, set_ADC rest s)
    end.
Proof.
  unfold bind, getAnalog, bind, sample_ADC, ret.
  destruct (ADC s); reflexivity.
Qed.

Lemma recharge_test (s : State) :
  (l <- getBatLevel ;; ret (l <? 10)) s
  = match ADC s with
    | [] => None
    | v :: rest => Some (bat_percent v <? 10, set_ADC rest s)
    end.
Proof.
  unfold bind, getBatLevel, bind, sample_ADC, ret.
  destruct (ADC s); reflexivity.
Qed.

(** The release wait [while(getAnalog(BUTTONS) < 1000);] only consumes
    conversions. *)
Lemma wait_release_inv (fuel : nat) :
  forall s s',
    while_fuel fuel (b <- getAnalog BUTTONS ;; ret (b <? 1000)) (ret tt) s
    = Some (tt, s') ->
    s' = set_ADC (ADC s') s.
Proof.
  induction fuel as [|n IH]; intros s s' H; [discriminate H|].
  rewrite while_fuel_S, release_test in H.
  destruct (ADC s) as [|v rest]; [discriminate H|].
  destruct (v <? 1000).
  - unfold ret in H. apply IH in H. rewrite H. reflexivity.
  - injection H as <-. reflexivity.
Qed.

(** It ends at the first sample at or above the idle level. *)
Lemma wait_release_run (held : list Z) :
  forall (fuel : nat) (r : Z) (rest : list Z) (s : State),
    ADC s = held ++ r :: rest ->
    Forall (fun x => x < 1000) held ->
    1000 <= r ->
    (length held < fuel)%nat ->
    while_fuel fuel (b <- getAnalog BUTTONS ;; ret (b <? 1000)) (ret tt) s
    = Some (tt, set_ADC rest s).
Proof.
  induction held as [|h held IH]; intros fuel r rest s Hadc Hall Hr Hfuel;
    (destruct fuel as [|n]; [simpl in Hfuel; lia|]);
    rewrite while_fuel_S, release_test, Hadc; cbn [app].
  - destruct (Z.ltb_spec r 1000); [lia|]. reflexivity.
  - inversion Hall as [|? ? Hh Hheld]; subst.
    destruct (Z.ltb_spec h 1000); [|lia].
    unfold ret at 1.
    rewrite (IH n r rest (set_ADC (held ++ r :: rest) s)); auto.
    simpl in Hfuel. lia.
Qed.

(** The recharge wait [while(getBatLevel() < 10) sleep();] consumes
    conversions and sleeps. *)
Lemma wait_recharge_inv (fuel : nat) :
  forall s s',
    while_fuel fuel (l <- getBatLevel ;; ret (l <? 10)) (exec sleep) s
    = Some (tt, s') ->
    exists k : nat,
      s' = set_ADC (ADC s') (set_trace (trace s ++ repeat Sleep k) s).
Proof.
  induction fuel as [|n IH]; intros s s' H; [discriminate H|].
  rewrite while_fuel_S, recharge_test in H.
  destruct (ADC s) as [|v rest]; [discriminate H|].
  destruct (bat_percent v <? 10).
  - unfold exec in H. apply IH in H. destruct H as [k Hk].
    exists (S k). rewrite Hk. unfold sleep, emit. cbn.
    rewrite <- app_assoc. reflexivity.
  - injection H as <-. exists 0%nat. cbn. rewrite app_nil_r. reflexivity.
Qed.

Lemma wait_recharge_run (low : list Z) :
  forall (fuel : nat) (r : Z) (rest : list Z) (s : State),
    ADC s = low ++ r :: rest ->
    Forall (fun x => bat_percent x < 10) low ->
    10 <= bat_percent r ->
    (length low < fuel)%nat ->
    while_fuel fuel (l <- getBatLevel ;; ret (l <? 10)) (exec sleep) s
    = Some (tt, set_ADC rest
                  (set_trace (trace s ++ repeat Sleep (length low)) s)).
Proof.
  induction low as [|h low IH]; intros fuel r rest s Hadc Hall Hr Hfuel;
    (destruct fuel as [|n]; [simpl in Hfuel; lia|]);
    rewrite while_fuel_S, recharge_test, Hadc; cbn [app].
  - destruct (Z.ltb_spec (bat_percent r) 10); [lia|].
    cbn. rewrite app_nil_r. reflexivity.
  - inversion Hall as [|? ? Hh Hlow]; subst.
    destruct (Z.ltb_spec (bat_percent h) 10); [|lia].
    unfold exec at 1.
    rewrite (IH n r rest (sleep (set_ADC (low ++ r :: rest) s))); auto.
    + unfold sleep, emit. cbn. rewrite <- app_assoc. reflexivity.
    + simpl in Hfuel. lia.
Qed.

(** As long as every conversion maps to less than 10 %, it does not end. *)
Lemma wait_recharge_blocked (low : list Z) :
  forall (fuel : nat) (s : State),
    ADC s = low ->
    Forall (fun x => bat_percent x < 10) low ->
    while_fuel fuel (l <- getBatLevel ;; ret (l <? 10)) (exec sleep) s = None.
Proof.
  induction low as [|h low IH]; intros fuel s Hadc Hall;
    (destruct fuel as [|n]; [reflexivity|]);
    rewrite while_fuel_S, recharge_test, Hadc.
  - reflexivity.
  - inversion Hall as [|? ? Hh Hlow]; subst.
    destruct (Z.ltb_spec (bat_percent h) 10); [|lia].
    unfold exec at 1. apply IH; auto.
Qed.

(** ** [checkBatLevel] *)

Lemma bind_exec {B} (f : State -> State) (k : unit -> M B) (s : State) :
  bind (exec f) k s = k tt (f s).
Proof. reflexivity. Qed.

Lemma bind_ret {A B} (a : A) (k : A -> M B) (s : State) :
  bind (ret a) k s = k a s.
Proof. reflexivity. Qed.

Lemma bind_assoc {A B C} (m : M A) (k : A -> M B) (h : B -> M C) (s : State) :
  bind (bind m k) h s = bind m (fun a => bind (k a) h) s.
Proof. unfold bind. destruct (m s) as [[a s1]|]; reflexivity. Qed.

Lemma bind_getBatLevel {B} (k : Z -> M B) (r : Z) (rest : list Z) (s : State) :
  ADC s = r :: rest ->
  bind getBatLevel k s = k (bat_percent r) (set_ADC rest s).
Proof.
  intros E. unfold bind at 1. rewrite (getBatLevel_cons r rest s E).
  reflexivity.
Qed.

Lemma checkBatLevel_charged (r : Z) (rest : list Z) (s : State) :
  ADC s = r :: rest ->
  bat_percent r <> 0 ->
  checkBatLevel s
  = Some (tt, set_batcounter 600
                (updateOLED (set_batlevel (bat_percent r) (set_ADC rest s)))).
Proof.
  intros Hadc Hr. unfold checkBatLevel.
  rewrite (bind_getBatLevel _ r rest s Hadc).
  rewrite bind_exec.
  destruct (Z.eqb_spec (bat_percent r) 0); [contradiction|].
  rewrite bind_ret. rewrite bind_exec. reflexivity.
Qed.

Lemma checkBatLevel_recharged (r0 : Z) (low : list Z) (r1 r2 : Z)
      (rest : list Z) (s : State) :
  ADC s = r0 :: low ++ r1 :: r2 :: rest ->
  bat_percent r0 = 0 ->
  Forall (fun r => bat_percent r < 10) low ->
  10 <= bat_percent r1 ->
  checkBatLevel s
  = Some (tt,
      mkState (filecounts s) (foldercounts s) (bat_percent r2) (volume s)
        (folder s) (file s) (pause s) 600 (lastpoti s) (EEPROM s) rest
        (player_in s)
        (trace s
         ++ [OledSetContrast DIMM; OledFrame EmptyScreen]
         ++ (if pause s then [] else [PlayerPause])
         ++ repeat Sleep (length low)
         ++ [OledSetContrast BRIGHT]
         ++ (if pause s then [] else [PlayerStart])
         ++ [OledFrame (StatusScreen (folder s) (foldercounts s) (file s)
                          (filecounts s) (bat_percent r2)
                          (if pause s then None else Some (volume s)))])).
Proof.
  intros Hadc H0 Hlow H1. unfold checkBatLevel.
  rewrite (bind_getBatLevel _ r0 _ s Hadc).
  rewrite bind_exec. rewrite H0. cbn [Z.eqb].
  rewrite bind_assoc, bind_exec.
  rewrite bind_assoc, bind_exec.
  rewrite bind_assoc, bind_exec.
  rewrite bind_assoc.
  unfold bind at 1. unfold while_adc.
  destruct s as [fc foc bl vol fo fi pa bc lp ee adc pin tr].
  cbn in Hadc. subst adc.
  destruct pa; cbn [negb pause emit set_trace set_batlevel set_ADC trace ADC
                      filecounts foldercounts batlevel volume folder file
                      batcounter lastpoti EEPROM player_in].
  all: match goal with
       | |- context [while_fuel ?f _ _ ?st] =>
           rewrite (wait_recharge_run low f r1 (r2 :: rest) st)
       end; auto;
       [| cbn; rewrite length_app; cbn; lia ].
  all: rewrite bind_assoc, bind_exec.
  all: rewrite bind_assoc.
  all: erewrite bind_getBatLevel by reflexivity.
  all: rewrite bind_assoc, bind_exec, bind_exec, bind_exec.
  all: unfold exec, updateOLED, status_screen, emit; cbn.
  all: repeat rewrite <- app_assoc; reflexivity.
Qed.

Lemma bind_getBatLevel_nil {B} (k : Z -> M B) (s : State) :
  ADC s = [] -> bind getBatLevel k s = None.
Proof.
  intros E. unfold bind at 1. unfold getBatLevel, bind, sample_ADC.
  rewrite E. reflexivity.
Qed.

Lemma filter_repeat_Sleep (k : nat) :
  filter is_player_command (repeat Sleep k) = [].
Proof. induction k; simpl; auto. Qed.

Lemma checkBatLevel_inv (s s' : State) :
  checkBatLevel s = Some (tt, s') ->
  exists (r : Z) (rest : list Z) (l : Z) (cmds : list Command),
    ADC s = r :: rest /\
    s' = mkState (filecounts s) (foldercounts s) l (volume s) (folder s)
                 (file s) (pause s) 600 (lastpoti s) (EEPROM s) (ADC s')
                 (player_in s) (trace s ++ cmds) /\
    filter is_player_command cmds
    = (if (bat_percent r =? 0) && negb (pause s)
       then [PlayerPause; PlayerStart] else []).
Proof.
  unfold checkBatLevel. intros H.
  destruct (ADC s) as [|r rest] eqn:Hadc.
  { rewrite bind_getBatLevel_nil in H by assumption. discriminate H. }
  exists r, rest.
  rewrite (bind_getBatLevel _ r rest s Hadc) in H.
  rewrite bind_exec in H.
  destruct (bat_percent r =? 0).
  - rewrite bind_assoc, bind_exec in H.
    rewrite bind_assoc, bind_exec in H.
    rewrite bind_assoc, bind_exec in H.
    rewrite bind_assoc in H.
    unfold bind at 1 in H.
    match type of H with
    | context [while_adc ?c ?b ?st] =>
        destruct (while_adc c b st) as [[[] s1]|] eqn:W; [|discriminate H]
    end.
    unfold while_adc in W. apply wait_recharge_inv in W.
    destruct W as [k Hk].
    rewrite bind_assoc, bind_exec in H.
    rewrite bind_assoc in H.
    destruct (ADC s1) as [|r2 rest2] eqn:Hadc1.
    { rewrite bind_getBatLevel_nil in H; [discriminate H|].
      cbn. exact Hadc1. }
    erewrite bind_getBatLevel in H by (cbn; exact Hadc1).
    rewrite bind_assoc, bind_exec, bind_exec, bind_exec in H.
    unfold exec in H. injection H as <-.
    rewrite Hk. clear Hk Hadc1.
    destruct s as [fc foc bl vol fo fi pa bc lp ee adc pin tr].
    destruct pa; unfold updateOLED, status_screen, emit; cbn.
    + exists (bat_percent r2).
      eexists. split; [reflexivity|]. split.
      * f_equal. repeat rewrite <- app_assoc. reflexivity.
      * cbn. rewrite filter_app, filter_repeat_Sleep. reflexivity.
    + exists (bat_percent r2).
      eexists. split; [reflexivity|]. split.
      * f_equal. repeat rewrite <- app_assoc. reflexivity.
      * cbn. rewrite filter_app, filter_repeat_Sleep. reflexivity.
  - rewrite bind_ret, bind_exec in H. unfold exec in H. injection H as <-.
    exists (bat_percent r), [OledFrame (status_screen
                               (set_batlevel (bat_percent r) (set_ADC rest s)))].
    split; [reflexivity|]. split; [|reflexivity].
    destruct s; reflexivity.
Qed.

Lemma checkBatLevel_blocked (r0 : Z) (low : list Z) (s : State) :
  ADC s = r0 :: low ->
  bat_percent r0 = 0 ->
  Forall (fun r => bat_percent r < 10) low ->
  checkBatLevel s = None.
Proof.
  intros Hadc H0 Hlow. unfold checkBatLevel.
  rewrite (bind_getBatLevel _ r0 _ s Hadc).
  rewrite bind_exec. rewrite H0. cbn [Z.eqb].
  rewrite bind_assoc, bind_exec.
  rewrite bind_assoc, bind_exec.
  rewrite bind_assoc, bind_exec.
  rewrite bind_assoc.
  unfold bind at 1. unfold while_adc.
  rewrite (wait_recharge_blocked low); auto.
  destruct s as [fc foc bl vol fo fi pa bc lp ee adc pin tr].
  cbn in Hadc. subst adc. destruct pa; reflexivity.
Qed.

(** C6.  When the first conversion maps to 0 %, [checkBatLevel] dims the
    display, pauses the decoder if the session is playing, and sleeps once per
    conversion that maps to less than 10 %; it does not return while only such
    conversions arrive.  At the first conversion that maps to 10 % or more it
    restores the contrast, starts the decoder again if the session is playing,
    and returns with folder, file, volume and the pause flag as they were; a
    session that was paused gets neither a pause nor a start command. *)
Theorem checkBatLevel_lockout (r0 : Z) (low : list Z) (r1 r2 : Z)
        (rest : list Z) (s : State) :
  bat_percent r0 = 0 ->
  Forall (fun r => bat_percent r < 10) low ->
  10 <= bat_percent r1 ->
  (ADC s = r0 :: low -> checkBatLevel s = None) /\
  (ADC s = r0 :: low ++ r1 :: r2 :: rest ->
   exists s' : State,
     checkBatLevel s = Some (tt, s') /\
     issued s s'
     = [OledSetContrast DIMM; OledFrame EmptyScreen]
       ++ (if pause s then [] else [PlayerPause])
       ++ repeat Sleep (length low)
       ++ [OledSetContrast BRIGHT]
       ++ (if pause s then [] else [PlayerStart])
       ++ [OledFrame (status_screen s')] /\
     filter is_player_command (issued s s')
     = (if pause s then [] else [PlayerPause; PlayerStart]) /\
     folder s' = folder s /\ file s' = file s /\ volume s' = volume s /\
     pause s' = pause s /\
     batlevel s' = bat_percent r2 /\ ADC s' = rest).
Proof.
  intros H0 Hlow H1. split.
  - intros Hadc. exact (checkBatLevel_blocked r0 low s Hadc H0 Hlow).
  - intros Hadc.
    pose proof (checkBatLevel_recharged r0 low r1 r2 rest s Hadc H0 Hlow H1)
      as Hrun.
    eexists. split; [exact Hrun|].
    match goal with
    | |- issued s ?st = _ /\ _ =>
        assert (Hi : issued s st
                     = [OledSetContrast DIMM; OledFrame EmptyScreen]
                       ++ (if pause s then [] else [PlayerPause])
                       ++ repeat Sleep (length low)
                       ++ [OledSetContrast BRIGHT]
                       ++ (if pause s then [] else [PlayerStart])
                       ++ [OledFrame (status_screen st)])
    end.
    { apply issued_app. reflexivity. }
    split; [exact Hi|]. split.
    + rewrite Hi. destruct (pause s); cbn;
        rewrite filter_app, filter_repeat_Sleep; reflexivity.
    + cbn. repeat split; reflexivity.
Qed.

Lemma checkBatLevel_lockout_witness :
  let s := power_on eeprom_blank [352; 352; 350; 340; 341; 7] [] in
  exists s' : State,
    checkBatLevel s = Some (tt, s') /\
    filter is_player_command (issued s s') = [PlayerPause; PlayerStart] /\
    folder s' = folder s /\ file s' = file s /\ volume s' = volume s /\
    pause s' = false /\ ADC s' = [7].
Proof.
  intros s.
  destruct (proj2 (checkBatLevel_lockout 352 [352; 350] 340 341 [7] s
                     eq_refl
                     ltac:(repeat constructor)
                     ltac:(vm_compute; discriminate))
                  eq_refl)
    as (s' & Hrun & _ & Hf & Hfo & Hfi & Hv & Hp & _ & Hadc).
  exists s'. repeat split; assumption.
Defined.

(** C9.  Whenever [checkBatLevel] returns, the pause flag, folder, file and
    volume are what they were at the call; the only decoder commands it issues
    are one pause and one start, and those only when it entered the lockout
    (first conversion at 0 %) with the pause flag false. *)
Theorem checkBatLevel_keeps_session (s s' : State) (r : Z) (rest : list Z) :
  ADC s = r :: rest ->
  checkBatLevel s = Some (tt, s') ->
  pause s' = pause s /\
  folder s' = folder s /\ file s' = file s /\ volume s' = volume s /\
  filter is_player_command (issued s s')
  = (if (bat_percent r =? 0) && negb (pause s)
     then [PlayerPause; PlayerStart] else []) /\
  (pause s = false -> pause s' = false).
Proof.
  intros Hadc Hrun.
  destruct (checkBatLevel_inv s s' Hrun)
    as (r' & rest' & l & cmds & Hadc' & Hs' & Hcmds).
  rewrite Hadc in Hadc'. injection Hadc' as <- <-.
  assert (Hi : issued s s' = cmds).
  { apply issued_app. rewrite Hs'. reflexivity. }
  rewrite Hi, Hcmds. rewrite Hs'. cbn. repeat split; auto.
Qed.

Lemma checkBatLevel_keeps_session_witness :
  let s := power_on eeprom_blank [352; 350; 340; 341; 7] [] in
  exists s' : State,
    checkBatLevel s = Some (tt, s') /\
    pause s' = false /\ folder s' = 1 /\ file s' = 1 /\ volume s' = 20 /\
    filter is_player_command (issued s s') = [PlayerPause; PlayerStart].
Proof.
  intros s. eexists. split; [vm_compute; reflexivity|].
  match goal with
  | |- pause ?st = _ /\ _ =>
      destruct (checkBatLevel_keeps_session s st 352 [350; 340; 341; 7]
                  eq_refl eq_refl)
        as (Hp & Hfo & Hfi & Hv & Hc & _)
  end.
  repeat split; assumption.
Defined.

(** ** Buttons *)

Lemma to_uint8_range (z : Z) : 0 <= to_uint8 z < 256.
Proof. unfold to_uint8. apply Z.mod_pos_bound. lia. Qed.

Lemma in_window_iff (ref buttons : Z) :
  in_window ref buttons = true <-> ref - 20 < buttons < ref + 20.
Proof.
  unfold in_window. rewrite andb_true_iff, Z.ltb_lt, Z.gtb_lt. lia.
Qed.

Lemma in_window_false (ref buttons : Z) :
  ~ (ref - 20 < buttons < ref + 20) -> in_window ref buttons = false.
Proof.
  intros H. destruct (in_window ref buttons) eqn:E; [|reflexivity].
  apply in_window_iff in E. contradiction.
Qed.

Lemma dispatch_buttons_event (card : DFPlayer) (buttons : Z) (s : State) :
  dispatch_buttons card buttons s = handle card (button_event buttons) s.
Proof.
  unfold dispatch_buttons, button_event, handle; cbv zeta.
  destruct (in_window PREV buttons) eqn:EP.
  - apply in_window_iff in EP. unfold PREV in EP.
    rewrite (in_window_false NEXT), (in_window_false OK)
      by (unfold NEXT, OK; lia).
    destruct (Z.ltb_spec buttons 1000); [|lia].
    cbv beta iota. reflexivity.
  - destruct (in_window NEXT buttons) eqn:EN.
    + apply in_window_iff in EN. unfold NEXT in EN.
      rewrite (in_window_false OK) by (unfold OK; lia).
      destruct (Z.ltb_spec buttons 1000); [|lia].
      cbv beta iota. reflexivity.
    + destruct (in_window OK buttons) eqn:EO.
      * apply in_window_iff in EO. unfold OK in EO.
        destruct (Z.ltb_spec buttons 1000); [|lia].
        cbv beta iota. reflexivity.
      * destruct (buttons <? 1000); cbv beta iota; reflexivity.
Qed.

Lemma button_event_next (buttons : Z) :
  532 < buttons < 572 -> button_event buttons = Next.
Proof.
  intros H. unfold button_event.
  destruct (Z.ltb_spec buttons 1000); [|lia].
  rewrite (in_window_false PREV) by (unfold PREV; lia).
  rewrite (proj2 (in_window_iff NEXT buttons)) by (unfold NEXT; lia).
  reflexivity.
Qed.

(** C4, amended.  The three tests of [loop] run the handler of exactly one
    event, which depends on the raw sample alone: Previous for samples
    strictly between 770 and 810, OkToggle strictly between 692 and 732, Next
    strictly between 532 and 572, and none for every other sample. *)
Theorem button_event_windows (card : DFPlayer) (buttons : Z) (s : State) :
  dispatch_buttons card buttons s = handle card (button_event buttons) s /\
  (button_event buttons = Previous <-> 770 < buttons < 810) /\
  (button_event buttons = OkToggle <-> 692 < buttons < 732) /\
  (button_event buttons = Next <-> 532 < buttons < 572) /\
  (button_event buttons = NoButton <->
   ~ 770 < buttons < 810 /\ ~ 692 < buttons < 732 /\ ~ 532 < buttons < 572).
Proof.
  split; [apply dispatch_buttons_event|].
  unfold button_event.
  destruct (Z.ltb_spec buttons 1000) as [Hlt|Hge].
  - destruct (in_window PREV buttons) eqn:EP;
      [apply in_window_iff in EP
      |destruct (in_window NEXT buttons) eqn:EN;
       [apply in_window_iff in EN
       |destruct (in_window OK buttons) eqn:EO;
        [apply in_window_iff in EO|]]];
      unfold PREV, NEXT, OK in *.
    + repeat split; intros; try discriminate; try lia.
    + repeat split; intros; try discriminate; try lia.
    + repeat split; intros; try discriminate; try lia.
    + assert (HP : ~ 770 < buttons < 810).
      { intros H. rewrite (proj2 (in_window_iff 790 buttons)) in EP;
          [discriminate|lia]. }
      assert (HN : ~ 532 < buttons < 572).
      { intros H. rewrite (proj2 (in_window_iff 552 buttons)) in EN;
          [discriminate|lia]. }
      assert (HO : ~ 692 < buttons < 732).
      { intros H. rewrite (proj2 (in_window_iff 712 buttons)) in EO;
          [discriminate|lia]. }
      repeat split; intros; try discriminate; try lia.
  - repeat split; intros; try discriminate; try lia.
Qed.

(** C4 as stated fails at the ends of the closed windows: the samples 770,
    810, 692 and 572 lie in the windows of the specification and trigger
    nothing in [loop]. *)
Lemma readButtons_spec_counterexample :
  readButtons_spec 770 = Previous /\
  button_event 770 = NoButton /\
  dispatch_buttons card_three 770 boot_blank = boot_blank /\
  readButtons_spec 810 = Previous /\ button_event 810 = NoButton /\
  readButtons_spec 692 = OkToggle /\ button_event 692 = NoButton /\
  readButtons_spec 572 = Next /\ button_event 572 = NoButton.
Proof. repeat split; vm_compute; reflexivity. Qed.

(** ** The invariant of a run *)

Lemma denoise_rounds_inv (n : nat) :
  forall (result v : Z) (s s' : State),
    denoise_rounds n result s = Some (v, s') -> s' = set_ADC (ADC s') s.
Proof.
  induction n as [|n IH]; intros result v s s' H; simpl in H.
  - unfold ret in H. injection H as _ <-. symmetry. apply set_ADC_self.
  - unfold bind in H.
    destruct (sample_ADC s) as [[x s1]|] eqn:E; [|discriminate H].
    apply sample_ADC_inv in E. destruct E as [_ E1].
    apply IH in H. rewrite H, E1. reflexivity.
Qed.

Lemma denoiseAnalog_inv (port : Pin) (v : Z) (s s' : State) :
  denoiseAnalog port s = Some (v, s') -> s' = set_ADC (ADC s') s.
Proof.
  unfold denoiseAnalog, bind, ret.
  destruct (denoise_rounds 8 0 s) as [[x s1]|] eqn:E; [|discriminate].
  intros H. injection H as _ <-. exact (denoise_rounds_inv 8 0 x s s1 E).
Qed.

Section Invariant.

Variable card : DFPlayer.

Lemma startFolderPlay_inv (s : State) :
  0 <= filecounts s -> session_inv (startFolderPlay card s).
Proof.
  intros Hfc. unfold session_inv.
  rewrite startFolderPlay_folder, startFolderPlay_file,
    startFolderPlay_filecounts, startFolderPlay_foldercounts.
  pose proof (to_uint8_range (readFileCountsInFolder card 1)).
  destruct (folder s >? foldercounts s) eqn:E; reflect_hyps; split; auto; lia.
Qed.

Lemma refresh_filecounts_nonneg (s : State) :
  0 <= filecounts (refresh_filecounts card s).
Proof.
  unfold refresh_filecounts. cbn.
  apply (to_uint8_range (readFileCountsInFolder card (folder s))).
Qed.

Lemma track_finished_inv (s : State) :
  session_inv s -> session_inv (track_finished card s).
Proof.
  intros [_ Hfc]. unfold track_finished. apply startFolderPlay_inv. exact Hfc.
Qed.

Lemma check_player_inv (s : State) :
  session_inv s -> session_inv (check_player card s).
Proof.
  intros Hs. unfold check_player.
  destruct (player_in s) as [|[[[|code] value]|] rest]; auto.
  apply track_finished_inv. exact Hs.
Qed.

Lemma track_poti_inv (getpoti : Z) (s : State) :
  session_inv s -> session_inv (track_poti getpoti s).
Proof.
  intros Hs. unfold track_poti; cbv zeta.
  destruct (poti_moved (lastpoti s) getpoti); cbn;
    match goal with |- context [if ?c then _ else _] => destruct c end;
    exact Hs.
Qed.

Lemma check_poti_inv (s s' : State) :
  session_inv s -> check_poti s = Some (tt, s') -> session_inv s'.
Proof.
  intros Hs H. unfold check_poti, bind, exec in H.
  destruct (denoiseAnalog POTIPIN s) as [[v s1]|] eqn:E; [|discriminate H].
  apply denoiseAnalog_inv in E. injection H as <-.
  apply track_poti_inv. rewrite E. exact Hs.
Qed.

Lemma handle_inv (e : ButtonEvent) (s : State) :
  session_inv s -> session_inv (handle card e s).
Proof.
  intros Hs. destruct e; cbn [handle].
  - unfold press_prev; cbv zeta. apply startFolderPlay_inv.
    cbn. apply refresh_filecounts_nonneg.
  - unfold press_next. apply startFolderPlay_inv. exact (proj2 Hs).
  - unfold press_ok; cbv zeta. unfold updateOLED, emit. cbn.
    destruct (negb (pause s)); exact Hs.
  - exact Hs.
Qed.

(** What "check buttons" comes to when it returns. *)
Lemma check_buttons_inv (s s' : State) :
  check_buttons card s = Some (tt, s') ->
  exists (b : Z) (rest : list Z),
    ADC s = b :: rest /\
    s' = set_ADC (ADC s') (handle card (button_event b) (set_ADC rest s)).
Proof.
  intros H. unfold check_buttons in H. unfold bind at 1 in H.
  unfold getAnalog, bind, ret in H.
  destruct (sample_ADC s) as [[b s1]|] eqn:E; [|discriminate H].
  apply sample_ADC_inv in E. destruct E as [E0 E1].
  exists b, (ADC s1). split; [exact E0|]. rewrite <- E1.
  unfold button_event.
  destruct (b <? 1000) eqn:Eb.
  - unfold exec in H.
    match type of H with
    | context [while_adc ?c ?body ?st] =>
        change (while_adc c body st = Some (tt, s')) in H
    end.
    unfold while_adc in H. apply wait_release_inv in H.
    rewrite dispatch_buttons_event in H. unfold button_event in H.
    rewrite Eb in H. exact H.
  - injection H as <-. cbn [handle]. symmetry. apply set_ADC_self.
Qed.

Lemma check_buttons_keeps_inv (s s' : State) :
  session_inv s -> check_buttons card s = Some (tt, s') -> session_inv s'.
Proof.
  intros Hs H. apply check_buttons_inv in H.
  destruct H as (b & rest & _ & ->).
  change (session_inv (handle card (button_event b) (set_ADC rest s))).
  apply handle_inv. exact Hs.
Qed.

Lemma checkBatLevel_keeps_inv (s s' : State) :
  session_inv s -> checkBatLevel s = Some (tt, s') -> session_inv s'.
Proof.
  intros Hs H. apply checkBatLevel_inv in H.
  destruct H as (r & rest & l & cmds & _ & -> & _). exact Hs.
Qed.

Lemma check_battery_keeps_inv (s s' : State) :
  session_inv s -> check_battery s = Some (tt, s') -> session_inv s'.
Proof.
  intros Hs H. unfold check_battery in H.
  rewrite bind_exec in H. unfold bind, gets in H.
  match type of H with context [if ?c then _ else _] => destruct c end.
  - apply checkBatLevel_keeps_inv in H; auto.
  - unfold ret in H. injection H as <-. exact Hs.
Qed.

Lemma setup_inv (s0 s : State) :
  setup card s0 = Some (tt, s) -> session_inv s.
Proof.
  unfold setup. rewrite !bind_exec.
  destruct (negb (begin_ok card)).
  - rewrite !bind_exec. discriminate.
  - unfold bind at 1.
    match goal with
    | |- context [checkBatLevel ?st] =>
        destruct (checkBatLevel st) as [[[] s1]|]; [|discriminate]
    end.
    rewrite !bind_exec. unfold exec. intros H. injection H as <-.
    apply startFolderPlay_inv. apply refresh_filecounts_nonneg.
Qed.

Lemma reach_inv (pt : Point) (s : State) :
  reach card pt s -> session_inv s.
Proof.
  induction 1 as [eeprom adc events s Hs
                 | s _ IH | s s' _ IH Hs | s s' _ IH Hs | s s' _ IH Hs
                 | s _ IH].
  - exact (setup_inv _ _ Hs).
  - apply check_player_inv. exact IH.
  - exact (check_poti_inv _ _ IH Hs).
  - exact (check_buttons_keeps_inv _ _ IH Hs).
  - exact (check_battery_keeps_inv _ _ IH Hs).
  - exact IH.
Qed.

(** One round of [loop] leads from the top of the loop to the top of the
    loop. *)
Lemma loop_reach (s s' : State) :
  reach card LoopTop s -> loop card s = Some (tt, s') ->
  reach card LoopTop s'.
Proof.
  intros Hr H. unfold loop in H. rewrite bind_exec in H.
  unfold bind at 1 in H.
  destruct (check_poti (check_player card s)) as [[[] s1]|] eqn:E1;
    [|discriminate H].
  unfold bind at 1 in H.
  destruct (check_buttons card s1) as [[[] s2]|] eqn:E2; [|discriminate H].
  unfold bind at 1 in H.
  destruct (check_battery s2) as [[[] s3]|] eqn:E3; [|discriminate H].
  unfold exec in H. injection H as <-.
  apply reach_sleep.
  apply (reach_battery card s2 s3); [|exact E3].
  apply (reach_buttons card s1 s2); [|exact E2].
  apply (reach_poti card (check_player card s) s1); [|exact E1].
  apply reach_player. exact Hr.
Qed.

End Invariant.

(** ** The file counter at 255 *)

Lemma bind_getAnalog {B} (port : Pin) (k : Z -> M B) (b : Z) (rest : list Z)
      (s : State) :
  ADC s = b :: rest ->
  bind (getAnalog port) k s = k b (set_ADC rest s).
Proof.
  intros E. unfold bind at 1. unfold getAnalog, bind.
  rewrite (sample_ADC_cons b rest s E). reflexivity.
Qed.

Lemma handle_ADC (card : DFPlayer) (e : ButtonEvent) (s : State) :
  ADC (handle card e s) = ADC s.
Proof.
  destruct e; cbn [handle].
  - unfold press_prev; cbv zeta. rewrite startFolderPlay_ADC.
    unfold refresh_filecounts, emit. cbn.
    destruct (folder s <? foldercounts s); reflexivity.
  - unfold press_next. rewrite startFolderPlay_ADC. reflexivity.
  - unfold press_ok; cbv zeta. unfold updateOLED, emit. cbn.
    destruct (negb (pause s)); reflexivity.
  - reflexivity.
Qed.

(** "check buttons" on a sample below the idle level, followed by the samples
    of the held button and one sample at or above the idle level. *)
Lemma check_buttons_run (card : DFPlayer) (b : Z) (held : list Z) (r : Z)
      (rest : list Z) (s : State) :
  ADC s = b :: held ++ r :: rest ->
  b < 1000 ->
  Forall (fun x => x < 1000) held ->
  1000 <= r ->
  check_buttons card s
  = Some (tt, set_ADC rest (handle card (button_event b)
                                   (set_ADC (held ++ r :: rest) s))).
Proof.
  intros Hadc Hb Hheld Hr. unfold check_buttons.
  rewrite (bind_getAnalog _ _ b _ s Hadc).
  destruct (Z.ltb_spec b 1000); [|lia].
  rewrite bind_exec. unfold while_adc.
  rewrite dispatch_buttons_event.
  rewrite (wait_release_run held _ r rest); auto.
  - rewrite handle_ADC. reflexivity.
  - rewrite handle_ADC. cbn. rewrite length_app. cbn. lia.
Qed.

Lemma file_set_ADC (a : list Z) (s : State) : file (set_ADC a s) = file s.
Proof. reflexivity. Qed.

Lemma folder_set_ADC (a : list Z) (s : State) :
  folder (set_ADC a s) = folder s.
Proof. reflexivity. Qed.

Lemma issued_set_ADC_l (a : list Z) (s s' : State) :
  issued (set_ADC a s) s' = issued s s'.
Proof. reflexivity. Qed.

Lemma issued_set_ADC_r (a : list Z) (s s' : State) :
  issued s (set_ADC a s') = issued s s'.
Proof. reflexivity. Qed.

Lemma issued_same_trace (s x s' : State) :
  trace x = trace s -> issued s s' = issued x s'.
Proof. intros E. unfold issued. rewrite E. reflexivity. Qed.

Lemma next_file_at_255 (card : DFPlayer) (s : State) :
  session_inv s ->
  file s = 255 ->
  let s' := startFolderPlay card (set_file (to_uint8 (file s + 1)) s) in
  file s' = 0 /\ folder s' = folder s /\
  filter is_player_command (issued s s') = [PlayerPlayFolder (folder s) 0].
Proof.
  intros [Hfo Hfc] Hfile s'.
  assert (Hin : folder s <= foldercounts s) by lia.
  set (x := set_file (to_uint8 (file s + 1)) s) in *.
  assert (Hx : file x = 0 /\ folder x = folder s
               /\ foldercounts x = foldercounts s
               /\ filecounts x = filecounts s /\ trace x = trace s).
  { subst x. cbn. rewrite Hfile. repeat split; reflexivity. }
  destruct Hx as (X1 & X2 & X3 & X4 & X5).
  assert (Efi : file s' = 0).
  { subst s'. rewrite startFolderPlay_file, X1, X2, X3, X4.
    repeat step_if; reflect_hyps; lia. }
  assert (Efo : folder s' = folder s).
  { subst s'. rewrite startFolderPlay_folder, X2, X3.
    step_if; reflect_hyps; lia. }
  repeat split; auto.
  rewrite (issued_same_trace s x s') by exact X5.
  pose proof (startFolderPlay_issued card x) as Hi. cbv zeta in Hi.
  fold s' in Hi. rewrite Hi, Efi, Efo, X2, X3.
  destruct (Z.gtb_spec (folder s) (foldercounts s)); [lia|].
  cbn. repeat step_if; reflexivity.
Qed.

(** C8.  In every state of a run in which [file] is 255, a finished track at
    the top of [loop] and a press of Next at the button check increment the
    8-bit counter to 0; [startFolderPlay] leaves it at 0 and keeps the folder,
    and the one decoder command it issues is the play command for that folder
    and file 0. *)
Theorem file_wraps_at_255 (card : DFPlayer) :
  to_uint8 (255 + 1) = 0 /\
  (forall (s : State) (v : Z) (evs : list (option (PlayerType * Z))),
     reach card LoopTop s ->
     file s = 255 ->
     player_in s = Some (DFPlayerPlayFinished, v) :: evs ->
     file (check_player card s) = 0 /\
     folder (check_player card s) = folder s /\
     filter is_player_command (issued s (check_player card s))
     = [PlayerPlayFolder (folder s) 0]) /\
  (forall (s : State) (b : Z) (held : list Z) (r : Z) (rest : list Z),
     reach card ButtonCheck s ->
     file s = 255 ->
     ADC s = b :: held ++ r :: rest ->
     532 < b < 572 ->
     Forall (fun x => x < 1000) held ->
     1000 <= r ->
     exists s' : State,
       check_buttons card s = Some (tt, s') /\
       file s' = 0 /\ folder s' = folder s /\
       filter is_player_command (issued s s')
       = [PlayerPlayFolder (folder s) 0]).
Proof.
  split; [reflexivity|]. split.
  - intros s v evs Hr Hfile Hin.
    pose proof (reach_inv card _ _ Hr) as Hinv.
    unfold check_player. rewrite Hin. unfold track_finished.
    pose proof (next_file_at_255 card (set_player_in evs s) Hinv Hfile)
      as H.
    cbv zeta in H. destruct H as (H1 & H2 & H3).
    change (folder (set_player_in evs s)) with (folder s) in H2, H3.
    change (issued (set_player_in evs s)) with (issued s) in H3.
    split; [exact H1|]. split; [exact H2|exact H3].
  - intros s b held r rest Hr Hfile Hadc Hb Hheld Hrel.
    pose proof (reach_inv card _ _ Hr) as Hinv.
    rewrite (check_buttons_run card b held r rest s Hadc
               ltac:(lia) Hheld Hrel).
    eexists. split; [reflexivity|].
    assert (Eb : button_event b = Next).
    { apply (button_event_next b). exact Hb. }
    rewrite Eb. cbn [handle]. unfold press_next.
    pose proof (next_file_at_255 card (set_ADC (held ++ r :: rest) s)
                  Hinv Hfile) as H.
    cbv zeta in H. destruct H as (H1 & H2 & H3).
    rewrite (folder_set_ADC (held ++ r :: rest) s) in H2, H3.
    rewrite (issued_set_ADC_l (held ++ r :: rest) s) in H3.
    rewrite (file_set_ADC rest), (folder_set_ADC rest),
      (issued_set_ADC_r rest).
    split; [exact H1|]. split; [exact H2|exact H3].
Qed.

Lemma loop_top_255_reach : reach card_full LoopTop loop_top_255.
Proof.
  apply (reach_setup card_full eeprom_255 [300]
                     [Some (DFPlayerPlayFinished, 255)]).
  vm_compute. reflexivity.
Qed.

Lemma button_check_255_reach : reach card_full ButtonCheck button_check_255.
Proof.
  apply (reach_poti card_full
           (check_player card_full (run (setup card_full) boot_255_next))).
  - apply reach_player.
    apply (reach_setup card_full eeprom_255
             [300; 680; 680; 680; 680; 680; 680; 680; 680; 552; 1023] []).
    vm_compute. reflexivity.
  - vm_compute. reflexivity.
Qed.

Lemma loop_top_empty_reach : reach card_empty LoopTop loop_top_empty.
Proof.
  apply (reach_setup card_empty eeprom_blank [300] []).
  vm_compute. reflexivity.
Qed.

Lemma file_wraps_at_255_witness :
  (file loop_top_255 = 255 /\
   file (check_player card_full loop_top_255) = 0 /\
   folder (check_player card_full loop_top_255) = 1 /\
   filter is_player_command
          (issued loop_top_255 (check_player card_full loop_top_255))
   = [PlayerPlayFolder 1 0]) /\
  (file button_check_255 = 255 /\
   exists s' : State,
     check_buttons card_full button_check_255 = Some (tt, s') /\
     file s' = 0 /\ folder s' = 1 /\
     filter is_player_command (issued button_check_255 s')
     = [PlayerPlayFolder 1 0]).
Proof.
  split.
  - split; [vm_compute; reflexivity|].
    exact (proj1 (proj2 (file_wraps_at_255 card_full))
             loop_top_255 255 []
             loop_top_255_reach
             ltac:(vm_compute; reflexivity)
             ltac:(vm_compute; reflexivity)).
  - split; [vm_compute; reflexivity|].
    exact (proj2 (proj2 (file_wraps_at_255 card_full))
             button_check_255 552 [] 1023 []
             button_check_255_reach
             ltac:(vm_compute; reflexivity)
             ltac:(vm_compute; reflexivity)
             ltac:(lia)
             (Forall_nil _)
             ltac:(lia)).
Defined.

(** C1 as stated fails in runs: with track 255 of a 255-file folder restored
    from the EEPROM, the session is in range after [setup], and the call of
    [startFolderPlay] for the finished track leaves file 0 and plays it; on a
    card without folders the call in [setup] leaves folder 1 above a folder
    count of 0. *)
Lemma session_in_range_counterexample :
  (reach card_full LoopTop loop_top_255 /\
   session_in_range loop_top_255 /\
   reach card_full PotiCheck (check_player card_full loop_top_255) /\
   check_player card_full loop_top_255
   = startFolderPlay card_full
       (set_file 0 (set_player_in [] loop_top_255)) /\
   file (check_player card_full loop_top_255) = 0 /\
   In (PlayerPlayFolder 1 0) (trace (check_player card_full loop_top_255)) /\
   ~ session_in_range (check_player card_full loop_top_255)) /\
  (reach card_empty LoopTop loop_top_empty /\
   folder loop_top_empty = 1 /\ foldercounts loop_top_empty = 0 /\
   ~ session_in_range loop_top_empty).
Proof.
  split.
  - split; [exact loop_top_255_reach|].
    split; [unfold session_in_range; vm_compute; intuition discriminate|].
    split; [apply reach_player; exact loop_top_255_reach|].
    split; [vm_compute; reflexivity|].
    split; [vm_compute; reflexivity|].
    split.
    + vm_compute. tauto.
    + unfold session_in_range.
      replace (file (check_player card_full loop_top_255)) with 0
        by (vm_compute; reflexivity).
      lia.
  - split; [exact loop_top_empty_reach|].
    split; [vm_compute; reflexivity|].
    split; [vm_compute; reflexivity|].
    unfold session_in_range.
    replace (folder loop_top_empty) with 1 by (vm_compute; reflexivity).
    replace (foldercounts loop_top_empty) with 0 by (vm_compute; reflexivity).
    lia.
Qed.


(** ** The potentiometer *)

(** From a tracked value of 8 or more the test of [loop] is the hysteresis
    of 8 units. *)
Lemma poti_moved_above (T S : Z) :
  8 <= T <= 1023 -> 0 <= S <= 1023 ->
  (poti_moved T S = true <-> Z.abs (S - T) > 8).
Proof.
  intros HT HS. unfold poti_moved, to_uint16.
  rewrite (Z.mod_small (T - 8)) by lia.
  rewrite (Z.mod_small (T + 8)) by lia.
  rewrite orb_true_iff, Z.ltb_lt, Z.gtb_lt. lia.
Qed.

(** Below 8 the subtraction wraps and every sample replaces the tracked
    value. *)
Lemma poti_moved_below (T S : Z) :
  0 <= T < 8 -> 0 <= S <= 1023 -> poti_moved T S = true.
Proof.
  intros HT HS. unfold poti_moved, to_uint16.
  replace (T - 8) with (T + 65528 + (-1) * 65536) by lia.
  rewrite Z.mod_add by lia.
  rewrite (Z.mod_small (T + 65528)) by lia.
  apply orb_true_iff. left. apply Z.ltb_lt. lia.
Qed.

(** The volume computed from a tracked value is [T / 34], between 0 and
    30. *)
Lemma poti_volume_range (T : Z) :
  0 <= T <= 1023 -> to_uint8 (T / 34) = T / 34 /\ 0 <= T / 34 <= 30.
Proof.
  intros HT.
  assert (H : 0 <= T / 34 <= 30).
  { split.
    - apply Z.div_pos; lia.
    - assert (T / 34 < 31) by (apply Z.div_lt_upper_bound; lia). lia. }
  split; [|exact H]. unfold to_uint8. apply Z.mod_small. lia.
Qed.

(** C3 fails on the code for tracked values below 8.  After power-on the
    tracked value is 0; a first round of [loop] with the potentiometer at 5
    replaces it by 5, and a second round at 6 replaces it by 6, though the
    samples differ from the tracked value by 5 and by 1: [lastpoti - 8] wraps
    to 65528 and 65533 and every sample is below that. *)
Theorem poti_hysteresis_underflow :
  let s1 := run (loop card_three) loop_top_poti in
  let s2 := run (loop card_three) s1 in
  reach card_three LoopTop loop_top_poti /\
  loop card_three loop_top_poti = Some (tt, s1) /\
  loop card_three s1 = Some (tt, s2) /\
  lastpoti loop_top_poti = 0 /\ lastpoti s1 = 5 /\ lastpoti s2 = 6 /\
  to_uint16 (0 - 8) = 65528 /\ to_uint16 (5 - 8) = 65533 /\
  poti_moved 0 5 = true /\ poti_moved 5 6 = true /\
  Z.abs (5 - 0) <= 8 /\ Z.abs (6 - 5) <= 8.
Proof.
  intros s1 s2.
  split.
  { apply (reach_setup card_three eeprom_blank
             [300; 5; 5; 5; 5; 5; 5; 5; 5; 1023; 6; 6; 6; 6; 6; 6; 6; 6; 1023]
             []).
    vm_compute. reflexivity. }
  split; [vm_compute; reflexivity|].
  split; [vm_compute; reflexivity|].
  split; [vm_compute; reflexivity|].
  split; [vm_compute; reflexivity|].
  split; [vm_compute; reflexivity|].
  split; [vm_compute; reflexivity|].
  split; [vm_compute; reflexivity|].
  split; [vm_compute; reflexivity|].
  split; [vm_compute; reflexivity|].
  split; vm_compute; discriminate.
Qed.

(** * Further properties of the sketch *)

(** ** States are their fields *)

Lemma state_eq (s t : State) :
  filecounts s = filecounts t -> foldercounts s = foldercounts t ->
  batlevel s = batlevel t -> volume s = volume t ->
  folder s = folder t -> file s = file t -> pause s = pause t ->
  batcounter s = batcounter t -> lastpoti s = lastpoti t ->
  EEPROM s = EEPROM t -> ADC s = ADC t -> player_in s = player_in t ->
  trace s = trace t ->
  s = t.
Proof.
  destruct s, t; cbn; intros; subst; reflexivity.
Qed.

Lemma EEPROM_update_cong (k v : Z) (s t : State) :
  EEPROM s = EEPROM t ->
  EEPROM (EEPROM_update k v s) = EEPROM (EEPROM_update k v t).
Proof.
  intros E. unfold EEPROM_update, EEPROM_read. rewrite E.
  destruct (to_uint8 (EEPROM t k) =? v); [exact E|].
  unfold EEPROM_write, emit. cbn. rewrite E. reflexivity.
Qed.

Section StartFolderPlayMore.

Variable card : DFPlayer.

Ltac sfp_more :=
  intros; unfold startFolderPlay; cbv zeta; autorewrite with fw;
  unfold updateOLED, status_screen, refresh_filecounts, emit; cbn;
  repeat (step_if; cbn in * ); try reflexivity.

Lemma startFolderPlay_batcounter s :
  batcounter (startFolderPlay card s) = batcounter s.
Proof. sfp_more. Qed.

Lemma startFolderPlay_lastpoti s :
  lastpoti (startFolderPlay card s) = lastpoti s.
Proof. sfp_more. Qed.

Lemma startFolderPlay_player_in s :
  player_in (startFolderPlay card s) = player_in s.
Proof. sfp_more. Qed.

(** The EEPROM after the call is the EEPROM before it with the two updates
    done. *)
Lemma startFolderPlay_EEPROM s :
  EEPROM (startFolderPlay card s)
  = EEPROM (EEPROM_update 2 (folder (startFolderPlay card s))
              (EEPROM_update 1 (file (startFolderPlay card s)) s)).
Proof.
  rewrite startFolderPlay_folder, startFolderPlay_file.
  unfold startFolderPlay; cbv zeta.
  set (n := if folder s >? foldercounts s then _ else s).
  set (m := if file n >? filecounts n then set_file 1 n else n).
  assert (En : folder n = (if folder s >? foldercounts s then 1 else folder s)
               /\ EEPROM n = EEPROM s
               /\ file m = (if folder s >? foldercounts s then 1
                            else if file s >? filecounts s then 1 else file s)
               /\ folder m = folder n /\ EEPROM m = EEPROM n).
  { subst m n. unfold refresh_filecounts, emit.
    repeat (step_if; cbn in * ); repeat split; reflexivity. }
  destruct En as (En1 & En2 & Em1 & Em2 & Em3).
  clearbody m. clearbody n.
  rewrite <- Em1, <- En1, <- Em2.
  autorewrite with fw.
  apply EEPROM_update_cong. cbn [folder updateOLED].
  replace (file (updateOLED (set_pause false
             (emit (PlayerPlayFolder (folder m) (file m)) m))))
    with (file m) by reflexivity.
  apply EEPROM_update_cong. cbn. rewrite Em3. exact En2.
Qed.

(** [startFolderPlay] neither reads nor writes the queue of conversions. *)
Lemma startFolderPlay_set_ADC (a : list Z) (s : State) :
  startFolderPlay card (set_ADC a s) = set_ADC a (startFolderPlay card s).
Proof.
  generalize (eq_refl (set_ADC a (startFolderPlay card s))).
  generalize (set_ADC a (startFolderPlay card s)) at 2 3.
  intros t Ht.
  assert (F : filecounts t = filecounts (startFolderPlay card s)
              /\ foldercounts t = foldercounts (startFolderPlay card s)
              /\ batlevel t = batlevel (startFolderPlay card s)
              /\ volume t = volume (startFolderPlay card s)
              /\ folder t = folder (startFolderPlay card s)
              /\ file t = file (startFolderPlay card s)
              /\ pause t = pause (startFolderPlay card s)
              /\ batcounter t = batcounter (startFolderPlay card s)
              /\ lastpoti t = lastpoti (startFolderPlay card s)
              /\ EEPROM t = EEPROM (startFolderPlay card s)
              /\ ADC t = a
              /\ player_in t = player_in (startFolderPlay card s)
              /\ trace t = trace (startFolderPlay card s)).
  { rewrite <- Ht. generalize (startFolderPlay card s). intros u.
    repeat split; reflexivity. }
  clear Ht.
  destruct F as (F1 & F2 & F3 & F4 & F5 & F6 & F7 & F8 & F9 & F10 & F11
                 & F12 & F13).
  apply state_eq.
  - rewrite F1, !startFolderPlay_filecounts. reflexivity.
  - rewrite F2, !startFolderPlay_foldercounts. reflexivity.
  - rewrite F3, !startFolderPlay_batlevel. reflexivity.
  - rewrite F4, !startFolderPlay_volume. reflexivity.
  - rewrite F5, !startFolderPlay_folder. reflexivity.
  - rewrite F6, !startFolderPlay_file. reflexivity.
  - rewrite F7, !startFolderPlay_pause. reflexivity.
  - rewrite F8, !startFolderPlay_batcounter. reflexivity.
  - rewrite F9, !startFolderPlay_lastpoti. reflexivity.
  - rewrite F10.
    rewrite (startFolderPlay_EEPROM (set_ADC a s)),
      (startFolderPlay_EEPROM s).
    rewrite !startFolderPlay_folder, !startFolderPlay_file.
    apply EEPROM_update_cong. apply EEPROM_update_cong. reflexivity.
  - rewrite F11, startFolderPlay_ADC. reflexivity.
  - rewrite F12, !startFolderPlay_player_in. reflexivity.
  - rewrite F13.
    pose proof (startFolderPlay_trace card (set_ADC a s)) as H1.
    pose proof (startFolderPlay_trace card s) as H2.
    cbv zeta in H1, H2. unfold status_screen in H1, H2.
    rewrite startFolderPlay_folder, startFolderPlay_file,
      startFolderPlay_filecounts, startFolderPlay_foldercounts,
      startFolderPlay_batlevel, startFolderPlay_volume,
      startFolderPlay_pause in H1, H2.
    rewrite H1, H2. reflexivity.
Qed.

End StartFolderPlayMore.

(** ** The button handlers *)

Lemma issued_trans (s x s' : State) (l l' : list Command) :
  trace x = trace s ++ l -> trace s' = trace x ++ l' ->
  issued s s' = l ++ l'.
Proof.
  intros E1 E2. apply issued_app. rewrite E2, E1, app_assoc. reflexivity.
Qed.

Lemma to_uint8_small (z : Z) : 0 <= z < 256 -> to_uint8 z = z.
Proof. intros H. unfold to_uint8. apply Z.mod_small. exact H. Qed.

(** The decoder commands of one [startFolderPlay]. *)
Lemma startFolderPlay_player_commands (card : DFPlayer) (s : State) :
  filter is_player_command (issued s (startFolderPlay card s))
  = (if folder s >? foldercounts s
     then [PlayerReadFileCountsInFolder 1] else [])
    ++ [PlayerPlayFolder (folder (startFolderPlay card s))
                         (file (startFolderPlay card s))].
Proof.
  pose proof (startFolderPlay_issued card s) as Hi. cbv zeta in Hi.
  rewrite Hi. generalize (startFolderPlay card s). intros t.
  repeat step_if; reflexivity.
Qed.

Lemma filter_player_app (l l' : list Command) :
  filter is_player_command (l ++ l')
  = filter is_player_command l ++ filter is_player_command l'.
Proof. apply filter_app. Qed.

Section Handlers.

Variable card : DFPlayer.

Lemma press_next_set_ADC (a : list Z) (s : State) :
  press_next card (set_ADC a s) = set_ADC a (press_next card s).
Proof.
  unfold press_next.
  change (set_file (to_uint8 (file (set_ADC a s) + 1)) (set_ADC a s))
    with (set_ADC a (set_file (to_uint8 (file s + 1)) s)).
  apply startFolderPlay_set_ADC.
Qed.

Lemma press_prev_set_ADC (a : list Z) (s : State) :
  press_prev card (set_ADC a s) = set_ADC a (press_prev card s).
Proof.
  unfold press_prev; cbv zeta.
  rewrite <- startFolderPlay_set_ADC. f_equal.
  unfold refresh_filecounts, emit. cbn.
  destruct (folder s <? foldercounts s); reflexivity.
Qed.

Lemma press_ok_set_ADC (a : list Z) (s : State) :
  press_ok (set_ADC a s) = set_ADC a (press_ok s).
Proof.
  unfold press_ok; cbv zeta. unfold updateOLED, status_screen, emit. cbn.
  destruct (negb (pause s)); reflexivity.
Qed.

Lemma handle_set_ADC (e : ButtonEvent) (a : list Z) (s : State) :
  handle card e (set_ADC a s) = set_ADC a (handle card e s).
Proof.
  destruct e; cbn [handle].
  - apply press_prev_set_ADC.
  - apply press_next_set_ADC.
  - apply press_ok_set_ADC.
  - reflexivity.
Qed.

Lemma set_ADC_set_ADC (a b : list Z) (s : State) :
  set_ADC a (set_ADC b s) = set_ADC a s.
Proof. reflexivity. Qed.

Lemma wait_release_blocked (held : list Z) :
  forall (fuel : nat) (s : State),
    ADC s = held ->
    Forall (fun x => x < 1000) held ->
    while_fuel fuel (b <- getAnalog BUTTONS ;; ret (b <? 1000)) (ret tt) s
    = None.
Proof.
  induction held as [|h held IH]; intros fuel s Hadc Hall;
    (destruct fuel as [|n]; [reflexivity|]);
    rewrite while_fuel_S, release_test, Hadc.
  - reflexivity.
  - inversion Hall as [|? ? Hh Hheld]; subst.
    destruct (Z.ltb_spec h 1000); [|lia].
    unfold ret at 1. apply IH; auto.
Qed.

Lemma check_buttons_idle (b : Z) (rest : list Z) (s : State) :
  1000 <= b -> ADC s = b :: rest ->
  check_buttons card s = Some (tt, set_ADC rest s).
Proof.
  intros Hb Hadc. unfold check_buttons.
  rewrite (bind_getAnalog _ _ b rest s Hadc).
  destruct (Z.ltb_spec b 1000); [lia|]. reflexivity.
Qed.

(** The debounce of "check buttons".  A sample at or above the idle level
    costs one conversion and does nothing.  A sample below it runs the handler
    of its event once, whatever the samples taken while the button is held
    are, and the call returns at the first sample at or above the idle level;
    it does not return before. *)
Theorem check_buttons_debounce (b : Z) (held : list Z) (s : State) :
  Forall (fun x => x < 1000) held ->
  (forall rest, 1000 <= b -> ADC s = b :: rest ->
                check_buttons card s = Some (tt, set_ADC rest s)) /\
  (b < 1000 -> ADC s = b :: held -> check_buttons card s = None) /\
  (forall r rest, b < 1000 -> 1000 <= r ->
                  ADC s = b :: held ++ r :: rest ->
                  check_buttons card s
                  = Some (tt, set_ADC rest (handle card (button_event b) s))).
Proof.
  intros Hheld. split; [|split].
  - intros rest Hb Hadc. exact (check_buttons_idle b rest s Hb Hadc).
  - intros Hb Hadc. unfold check_buttons.
    rewrite (bind_getAnalog _ _ b held s Hadc).
    destruct (Z.ltb_spec b 1000); [|lia].
    rewrite bind_exec. unfold while_adc.
    rewrite dispatch_buttons_event.
    apply (wait_release_blocked held); [|exact Hheld].
    rewrite handle_ADC. reflexivity.
  - intros r rest Hb Hr Hadc.
    rewrite (check_buttons_run card b held r rest s Hadc Hb Hheld Hr).
    rewrite handle_set_ADC, set_ADC_set_ADC. reflexivity.
Qed.

Lemma next_file_step (s : State) :
  folder s <= foldercounts s ->
  0 <= file s <= filecounts s ->
  file s < 255 ->
  let s' := press_next card s in
  file s' = (if file s <? filecounts s then file s + 1 else 1) /\
  folder s' = folder s /\ filecounts s' = filecounts s /\
  foldercounts s' = foldercounts s /\ pause s' = false /\
  filter is_player_command (issued s s')
  = [PlayerPlayFolder (folder s) (file s')].
Proof.
  intros Hfo Hfi Hfc s'. subst s'. unfold press_next.
  set (x := set_file (to_uint8 (file s + 1)) s).
  assert (Hx : file x = file s + 1 /\ folder x = folder s
               /\ foldercounts x = foldercounts s
               /\ filecounts x = filecounts s /\ trace x = trace s).
  { subst x. cbn. rewrite to_uint8_small by lia. repeat split; reflexivity. }
  destruct Hx as (X1 & X2 & X3 & X4 & X5). clearbody x.
  assert (Efi : file (startFolderPlay card x)
                = (if file s <? filecounts s then file s + 1 else 1)).
  { rewrite startFolderPlay_file, X1, X2, X3, X4.
    repeat step_if; reflect_hyps; lia. }
  assert (Efo : folder (startFolderPlay card x) = folder s).
  { rewrite startFolderPlay_folder, X2, X3. step_if; reflect_hyps; lia. }
  split; [exact Efi|]. split; [exact Efo|].
  split; [rewrite startFolderPlay_filecounts, X2, X3, X4;
          step_if; reflect_hyps; [lia|reflexivity]|].
  split; [rewrite startFolderPlay_foldercounts; exact X3|].
  split; [apply startFolderPlay_pause|].
  rewrite (issued_same_trace s x) by exact X5.
  rewrite startFolderPlay_player_commands, Efo, X2, X3.
  destruct (Z.gtb_spec (folder s) (foldercounts s)); [lia|]. reflexivity.
Qed.

(** Next, and a finished track, step from a file below 255 to the following
    file of the folder and from the last file of the folder back to file 1;
    the folder stays, the session plays, and the one decoder command is the
    play command for the new file. *)
Theorem press_next_steps (s : State) :
  folder s <= foldercounts s ->
  0 <= file s <= filecounts s ->
  file s < 255 ->
  let s' := press_next card s in
  track_finished card s = s' /\
  file s' = (if file s <? filecounts s then file s + 1 else 1) /\
  folder s' = folder s /\ filecounts s' = filecounts s /\
  pause s' = false /\
  filter is_player_command (issued s s')
  = [PlayerPlayFolder (folder s) (file s')].
Proof.
  intros Hfo Hfi Hfc s'.
  split.
  { subst s'. unfold track_finished, press_next. reflexivity. }
  destruct (next_file_step s Hfo Hfi Hfc) as (H1 & H2 & H3 & _ & H5 & H6).
  fold s' in H1, H2, H3, H5, H6. clearbody s'.
  split; [exact H1|]. split; [exact H2|]. split; [exact H3|].
  split; [exact H5|exact H6].
Qed.

Lemma prev_folder_step (s : State) :
  1 <= folder s <= foldercounts s ->
  foldercounts s <= 255 ->
  let s' := press_prev card s in
  folder s' = folder s mod foldercounts s + 1 /\
  foldercounts s' = foldercounts s /\
  file s' = 1 /\
  filecounts s' = to_uint8 (readFileCountsInFolder card (folder s')) /\
  pause s' = false /\
  filter is_player_command (issued s s')
  = [PlayerReadFileCountsInFolder (folder s');
     PlayerPlayFolder (folder s') 1].
Proof.
  intros Hfo Hfc s'. subst s'. unfold press_prev; cbv zeta.
  set (f' := folder s mod foldercounts s + 1).
  set (x := set_file 1 (refresh_filecounts card _)).
  assert (Hx : folder x = f' /\ file x = 1
               /\ foldercounts x = foldercounts s
               /\ filecounts x = to_uint8 (readFileCountsInFolder card f')
               /\ trace x = trace s ++ [PlayerReadFileCountsInFolder f']).
  { subst x f'. unfold refresh_filecounts, emit.
    destruct (Z.ltb_spec (folder s) (foldercounts s)); cbn.
    - rewrite to_uint8_small by lia. rewrite Z.mod_small by lia.
      repeat split; reflexivity.
    - assert (E : folder s = foldercounts s) by lia.
      rewrite E, Z.mod_same by lia. repeat split; reflexivity. }
  destruct Hx as (X1 & X2 & X3 & X4 & X5). clearbody x.
  assert (Hf' : 1 <= f' <= foldercounts s).
  { subst f'.
    pose proof (Z.mod_pos_bound (folder s) (foldercounts s) ltac:(lia)).
    lia. }
  pose proof (to_uint8_range (readFileCountsInFolder card f')) as Hr.
  assert (Efo : folder (startFolderPlay card x) = f').
  { rewrite startFolderPlay_folder, X1, X3. step_if; reflect_hyps; lia. }
  assert (Efi : file (startFolderPlay card x) = 1).
  { rewrite startFolderPlay_file, X1, X2, X3, X4.
    repeat step_if; reflect_hyps; lia. }
  assert (Efc : filecounts (startFolderPlay card x)
                = to_uint8 (readFileCountsInFolder card f')).
  { rewrite startFolderPlay_filecounts, X1, X3, X4.
    step_if; reflect_hyps; [lia|reflexivity]. }
  rewrite Efo, Efi, Efc, startFolderPlay_foldercounts, X3,
    startFolderPlay_pause.
  repeat split.
  pose proof (startFolderPlay_issued card x) as Hi. cbv zeta in Hi.
  pose proof (startFolderPlay_player_commands card x) as Hp.
  rewrite Efo, Efi, X1, X3 in Hp.
  destruct (Z.gtb_spec f' (foldercounts s)); [lia|].
  rewrite (issued_trans s x (startFolderPlay card x)
             [PlayerReadFileCountsInFolder f']
             (issued x (startFolderPlay card x))).
  - rewrite filter_player_app, Hp. reflexivity.
  - exact X5.
  - unfold issued. generalize (startFolderPlay_trace card x). cbv zeta.
    intros Ht. rewrite Ht, skipn_app, skipn_all, Nat.sub_diag.
    reflexivity.
Qed.

(** Previous goes to the following folder, and from the last folder to
    folder 1: it sets file 1, reads the file count of the new folder, plays
    its file 1 and clears the pause flag. *)
Theorem press_prev_steps (s : State) :
  1 <= folder s <= foldercounts s ->
  foldercounts s <= 255 ->
  let s' := press_prev card s in
  folder s' = (if folder s <? foldercounts s then folder s + 1 else 1) /\
  file s' = 1 /\
  filecounts s' = to_uint8 (readFileCountsInFolder card (folder s')) /\
  foldercounts s' = foldercounts s /\
  pause s' = false /\
  filter is_player_command (issued s s')
  = [PlayerReadFileCountsInFolder (folder s');
     PlayerPlayFolder (folder s') 1].
Proof.
  intros Hfo Hfc s'.
  destruct (prev_folder_step s Hfo Hfc) as (H1 & H2 & H3 & H4 & H5 & H6).
  fold s' in H1, H2, H3, H4, H5, H6. clearbody s'.
  split; [|split; [exact H3|split; [exact H4|split; [exact H2|
          split; [exact H5|exact H6]]]]].
  rewrite H1. destruct (Z.ltb_spec (folder s) (foldercounts s)).
  - rewrite Z.mod_small by lia. reflexivity.
  - replace (folder s) with (foldercounts s) by lia.
    rewrite Z.mod_same by lia. reflexivity.
Qed.



End Handlers.

(** OK toggles the pause flag and sends pause when the session becomes
    paused and start when it becomes playing; folder, file, volume and the
    EEPROM stay, and a second press undoes the first but for the commands
    issued. *)
Theorem press_ok_toggles (s : State) :
  let s1 := press_ok s in
  let s2 := press_ok s1 in
  pause s1 = negb (pause s) /\
  issued s s1
  = [if pause s then PlayerStart else PlayerPause;
     OledFrame (status_screen s1)] /\
  folder s1 = folder s /\ file s1 = file s /\ volume s1 = volume s /\
  EEPROM s1 = EEPROM s /\
  set_trace (trace s) s2 = s /\
  filter is_player_command (issued s s2)
  = (if pause s then [PlayerStart; PlayerPause]
     else [PlayerPause; PlayerStart]).
Proof.
  intros s1 s2. subst s2 s1. unfold press_ok; cbv zeta.
  unfold updateOLED, status_screen, emit, issued.
  destruct s as [fc foc bl vol fo fi pa bc lp ee adc pin tr].
  destruct pa; cbn;
    repeat rewrite <- app_assoc;
    rewrite ?skipn_app, ?skipn_all, ?Nat.sub_diag; cbn;
    repeat split; reflexivity.
Qed.

(** ** Invariants of a run *)

Section Runs.

Variable card : DFPlayer.

Lemma full_inv_frame (s t : State) :
  folder t = folder s -> file t = file s ->
  foldercounts t = foldercounts s -> filecounts t = filecounts s ->
  EEPROM t = EEPROM s -> batcounter t = batcounter s ->
  full_inv card s -> full_inv card t.
Proof.
  unfold full_inv, run_inv, bytes_ok, EEPROM_read.
  intros -> -> -> -> -> ->. auto.
Qed.

Lemma startFolderPlay_EEPROM_read_0 (x : State) :
  EEPROM_read 0 (startFolderPlay card x) = EEPROM_read 0 x.
Proof.
  unfold EEPROM_read at 1. rewrite startFolderPlay_EEPROM.
  change (EEPROM_read 0
            (EEPROM_update 2 (folder (startFolderPlay card x))
               (EEPROM_update 1 (file (startFolderPlay card x)) x))
          = EEPROM_read 0 x).
  rewrite !EEPROM_read_update_other by lia. reflexivity.
Qed.

Lemma startFolderPlay_full_inv (x : State) :
  bytes_ok x ->
  foldercounts x = to_uint8 (readFolderCounts card) ->
  filecounts x = to_uint8 (readFileCountsInFolder card (folder x)) ->
  EEPROM_read 0 x = 55 ->
  1 <= batcounter x <= 600 ->
  full_inv card (startFolderPlay card x).
Proof.
  intros Hb Hfoc Hfc Hm Hbc.
  destruct (startFolderPlay_persisted card x Hb) as [P1 P2].
  unfold full_inv, run_inv, bytes_ok.
  rewrite startFolderPlay_EEPROM_read_0, P1, P2, startFolderPlay_batcounter.
  rewrite startFolderPlay_folder, startFolderPlay_file,
    startFolderPlay_filecounts, startFolderPlay_foldercounts.
  destruct Hb as [Hb1 Hb2].
  destruct (folder x >? foldercounts x) eqn:E1; reflect_hyps.
  - repeat split; try lia; auto.
  - destruct (file x >? filecounts x) eqn:E2; reflect_hyps;
      repeat split; try lia; auto.
Qed.

Lemma next_full_inv (s : State) :
  full_inv card s ->
  full_inv card (startFolderPlay card (set_file (to_uint8 (file s + 1)) s)).
Proof.
  intros [(Hb & Hfoc & Hfc & _ & _ & Hm & _ & _) Hbc].
  apply startFolderPlay_full_inv; auto.
  destruct Hb as [Hb1 _]. split; [exact Hb1|].
  apply (to_uint8_range (file s + 1)).
Qed.

Lemma check_player_full_inv (s : State) :
  full_inv card s -> full_inv card (check_player card s).
Proof.
  intros Hs. unfold check_player.
  destruct (player_in s) as [|[[[|code] value]|] rest]; try exact Hs.
  unfold track_finished.
  apply (next_full_inv (set_player_in rest s)). exact Hs.
Qed.

Lemma track_poti_full_inv (getpoti : Z) (s : State) :
  full_inv card s -> full_inv card (track_poti getpoti s).
Proof.
  intros Hs. unfold track_poti; cbv zeta.
  destruct (poti_moved (lastpoti s) getpoti); cbn;
    match goal with |- context [if ?c then _ else _] => destruct c end;
    exact Hs.
Qed.

Lemma check_poti_full_inv (s s' : State) :
  full_inv card s -> check_poti s = Some (tt, s') -> full_inv card s'.
Proof.
  intros Hs H. unfold check_poti, bind, exec in H.
  destruct (denoiseAnalog POTIPIN s) as [[v s1]|] eqn:E; [|discriminate H].
  apply denoiseAnalog_inv in E. injection H as <-.
  apply track_poti_full_inv. rewrite E. exact Hs.
Qed.

Lemma handle_full_inv (e : ButtonEvent) (s : State) :
  full_inv card s -> full_inv card (handle card e s).
Proof.
  intros Hs. destruct e; cbn [handle].
  - destruct Hs as [(Hb & Hfoc & Hfc & _ & _ & Hm & _ & _) Hbc].
    unfold press_prev; cbv zeta. apply startFolderPlay_full_inv.
    + unfold bytes_ok, refresh_filecounts, emit. cbn.
      destruct (folder s <? foldercounts s); cbn.
      * split; [apply to_uint8_range|lia].
      * lia.
    + unfold refresh_filecounts, emit. cbn.
      destruct (folder s <? foldercounts s); exact Hfoc.
    + unfold refresh_filecounts, emit. cbn. reflexivity.
    + unfold refresh_filecounts, emit, EEPROM_read in *. cbn.
      destruct (folder s <? foldercounts s); exact Hm.
    + unfold refresh_filecounts, emit. cbn.
      destruct (folder s <? foldercounts s); exact Hbc.
  - unfold press_next. apply next_full_inv. exact Hs.
  - unfold press_ok; cbv zeta. unfold updateOLED, emit. cbn.
    destruct (negb (pause s)); exact Hs.
  - exact Hs.
Qed.

Lemma check_buttons_full_inv (s s' : State) :
  full_inv card s -> check_buttons card s = Some (tt, s') -> full_inv card s'.
Proof.
  intros Hs H. apply check_buttons_inv in H.
  destruct H as (b & rest & _ & ->).
  change (full_inv card (handle card (button_event b) (set_ADC rest s))).
  apply handle_full_inv. exact Hs.
Qed.

Lemma to_uint16_small (z : Z) : 0 <= z < 65536 -> to_uint16 z = z.
Proof. intros H. unfold to_uint16. apply Z.mod_small. exact H. Qed.

(** With the counter between 1 and 600, "check battery" samples the battery
    in the round in which the counter is 1 and only counts down otherwise. *)
Lemma check_battery_eq (s : State) :
  1 <= batcounter s <= 600 ->
  check_battery s
  = (if batcounter s =? 1 then checkBatLevel (set_batcounter 0 s)
     else Some (tt, set_batcounter (batcounter s - 1) s)).
Proof.
  intros Hbc. unfold check_battery. rewrite bind_exec.
  unfold bind, gets. cbn [batcounter set_batcounter].
  rewrite to_uint16_small by lia.
  destruct (Z.eqb_spec (batcounter s) 1) as [E|E].
  - rewrite E. reflexivity.
  - destruct (Z.eqb_spec (batcounter s - 1) 0); [lia|]. reflexivity.
Qed.

Lemma check_battery_full_inv (s s' : State) :
  full_inv card s -> check_battery s = Some (tt, s') -> full_inv card s'.
Proof.
  intros Hs H. pose proof Hs as [_ Hbc].
  rewrite (check_battery_eq s Hbc) in H.
  destruct (Z.eqb_spec (batcounter s) 1).
  - apply checkBatLevel_inv in H.
    destruct H as (r & rest & l & cmds & _ & -> & _).
    destruct Hs as [Hr _]. split; [exact Hr|]. cbn. lia.
  - injection H as <-. destruct Hs as [Hr _]. split; [exact Hr|]. cbn. lia.
Qed.

(** [setup] on a battery that is not empty: one conversion, then the start
    of the player. *)
Lemma setup_charged (eeprom : Z -> Z) (r : Z) (rest : list Z)
      (events : list (option (PlayerType * Z))) :
  begin_ok card = true ->
  bat_percent r <> 0 ->
  setup card (power_on eeprom (r :: rest) events)
  = Some (tt,
      startFolderPlay card
        (refresh_filecounts card
           (set_foldercounts (to_uint8 (readFolderCounts card))
              (emit PlayerReadFolderCounts
                 (emit (PlayerVolume 20)
                    (emit (PlayerSetTimeOut 500)
                       (let s1 :=
                          mkState 0 0 (bat_percent r) 20 1 1 false 600 0
                            eeprom rest events
                            [OledSetContrast BRIGHT; OledFrame StartScreen;
                             OledFrame (StatusScreen 1 0 1 0 (bat_percent r)
                                                     (Some 20))] in
                        if EEPROM_read 0 s1 =? 55
                        then set_folder (EEPROM_read 2 s1)
                               (set_file (EEPROM_read 1 s1) s1)
                        else EEPROM_write 0 55 s1))))))).
Proof.
  intros Hok Hr. unfold setup. rewrite !bind_exec, Hok. cbn [negb].
  unfold bind at 1.
  erewrite (checkBatLevel_charged r rest) by (reflexivity || exact Hr).
  rewrite !bind_exec. unfold exec. cbv zeta. f_equal. f_equal. f_equal.
  f_equal. f_equal.
  unfold EEPROM_read. cbn.
  destruct (to_uint8 (eeprom 0) =? 55); reflexivity.
Qed.

Lemma setup_full_inv (eeprom : Z -> Z) (adc : list Z)
      (events : list (option (PlayerType * Z))) (s : State) :
  setup card (power_on eeprom adc events) = Some (tt, s) -> full_inv card s.
Proof.
  unfold setup. rewrite !bind_exec.
  destruct (negb (begin_ok card)).
  - rewrite !bind_exec. discriminate.
  - unfold bind at 1.
    match goal with
    | |- context [checkBatLevel ?st] =>
        destruct (checkBatLevel st) as [[[] s1]|] eqn:E; [|discriminate]
    end.
    apply checkBatLevel_inv in E.
    destruct E as (r & rest & l & cmds & _ & E & _).
    cbn in E.
    rewrite !bind_exec. unfold exec. intros H. injection H as <-.
    rewrite E. clear E.
    apply startFolderPlay_full_inv.
    + unfold bytes_ok, refresh_filecounts, emit, EEPROM_read, EEPROM_write.
      cbn. destruct (to_uint8 (eeprom 0) =? 55); cbn.
      * split; apply to_uint8_range.
      * lia.
    + unfold refresh_filecounts, emit. cbn. reflexivity.
    + unfold refresh_filecounts, emit. cbn. reflexivity.
    + unfold refresh_filecounts, emit, EEPROM_read, EEPROM_write. cbn.
      destruct (Z.eqb_spec (to_uint8 (eeprom 0)) 55); cbn; auto.
    + unfold refresh_filecounts, emit, EEPROM_read, EEPROM_write. cbn.
      destruct (to_uint8 (eeprom 0) =? 55); cbn; lia.
Qed.

Lemma reach_full_inv (pt : Point) (s : State) :
  reach card pt s -> full_inv card s.
Proof.
  induction 1 as [eeprom adc events s Hs
                 | s _ IH | s s' _ IH Hs | s s' _ IH Hs | s s' _ IH Hs
                 | s _ IH].
  - exact (setup_full_inv _ _ _ _ Hs).
  - apply check_player_full_inv. exact IH.
  - exact (check_poti_full_inv _ _ IH Hs).
  - exact (check_buttons_full_inv _ _ IH Hs).
  - exact (check_battery_full_inv _ _ IH Hs).
  - exact IH.
Qed.


(** In every state of a run the displayed counts are the card's counts for
    the current folder, folder and file are normalized bytes, and the EEPROM
    holds the marker 55 and the current file and folder. *)
Theorem run_invariant (pt : Point) (s : State) :
  reach card pt s -> run_inv card s.
Proof.
  intros H. exact (proj1 (reach_full_inv pt s H)).
Qed.

(** In every state of a run the battery counter is between 1 and 600, so its
    decrement never wraps: "check battery" samples the battery in the round
    in which the counter is 1 and otherwise only counts down, without a
    conversion or a command. *)
Theorem batcounter_invariant (pt : Point) (s : State) :
  reach card pt s ->
  1 <= batcounter s <= 600 /\
  check_battery s
  = (if batcounter s =? 1 then checkBatLevel (set_batcounter 0 s)
     else Some (tt, set_batcounter (batcounter s - 1) s)).
Proof.
  intros H. pose proof (proj2 (reach_full_inv pt s H)) as Hbc.
  split; [exact Hbc|]. apply check_battery_eq. exact Hbc.
Qed.

End Runs.

(** ** Power-on *)

Lemma EEPROM_update_other_cell (a k v : Z) (s : State) :
  a <> k -> EEPROM (EEPROM_update k v s) a = EEPROM s a.
Proof.
  intros Hak. unfold EEPROM_update. step_if; [reflexivity|].
  unfold EEPROM_write, emit. cbn.
  destruct (Z.eqb_spec a k); [contradiction|reflexivity].
Qed.


Section PowerOn.

Variable card : DFPlayer.


(** The first power-on, with an EEPROM that does not hold the marker 55:
    [setup] ignores the cells 1 and 2, writes the marker, starts folder 1,
    file 1 and leaves 55, 1, 1 in the cells 0, 1, 2; no other cell
    changes. *)
Theorem first_boot (eeprom : Z -> Z) (r : Z) (rest : list Z)
        (events : list (option (PlayerType * Z))) :
  begin_ok card = true ->
  bat_percent r <> 0 ->
  to_uint8 (eeprom 0) <> 55 ->
  exists s' : State,
    setup card (power_on eeprom (r :: rest) events) = Some (tt, s') /\
    folder s' = 1 /\ file s' = 1 /\ pause s' = false /\
    EEPROM_read 0 s' = 55 /\ EEPROM_read 1 s' = 1 /\ EEPROM_read 2 s' = 1 /\
    (forall a, a <> 0 -> a <> 1 -> a <> 2 -> EEPROM s' a = eeprom a) /\
    filter is_player_command (trace s')
    = [PlayerSetTimeOut 500; PlayerVolume 20; PlayerReadFolderCounts;
       PlayerReadFileCountsInFolder 1]
      ++ (if 1 >? to_uint8 (readFolderCounts card)
          then [PlayerReadFileCountsInFolder 1] else [])
      ++ [PlayerPlayFolder 1 1].
Proof.
  intros Hok Hr Hm.
  pose proof (setup_charged card eeprom r rest events Hok Hr) as Hrun.
  eexists. split; [exact Hrun|].
  match goal with
  | |- folder (startFolderPlay card ?y) = _ /\ _ => set (x := y)
  end.
  assert (Hx : folder x = 1 /\ file x = 1
               /\ foldercounts x = to_uint8 (readFolderCounts card)
               /\ EEPROM x = (fun a => if a =? 0 then 55 else eeprom a)
               /\ filter is_player_command (trace x)
                  = [PlayerSetTimeOut 500; PlayerVolume 20;
                     PlayerReadFolderCounts;
                     PlayerReadFileCountsInFolder 1]).
  { subst x. unfold EEPROM_read. cbv zeta. cbn [EEPROM].
    destruct (Z.eqb_spec (to_uint8 (eeprom 0)) 55); [contradiction|].
    cbn. repeat split; reflexivity. }
  destruct Hx as (X1 & X2 & X3 & X5 & X6). clearbody x.
  assert (Hb : bytes_ok x) by (unfold bytes_ok; lia).
  destruct (startFolderPlay_persisted card x Hb) as [P1 P2].
  assert (Efo : folder (startFolderPlay card x) = 1).
  { rewrite startFolderPlay_folder, X1. step_if; reflexivity. }
  assert (Efi : file (startFolderPlay card x) = 1).
  { rewrite startFolderPlay_file, X2. repeat step_if; reflexivity. }
  split; [exact Efo|]. split; [exact Efi|].
  split; [apply startFolderPlay_pause|].
  split.
  { rewrite startFolderPlay_EEPROM_read_0. unfold EEPROM_read.
    rewrite X5. reflexivity. }
  split; [rewrite P1; exact Efi|]. split; [rewrite P2; exact Efo|].
  split.
  { intros a H0 H1 H2. rewrite startFolderPlay_EEPROM.
    rewrite !EEPROM_update_other_cell by assumption.
    rewrite X5. destruct (Z.eqb_spec a 0); [contradiction|reflexivity]. }
  pose proof (startFolderPlay_trace card x) as Ht. cbv zeta in Ht.
  rewrite Ht, Efo, Efi, X1, X3.
  generalize (status_screen (startFolderPlay card x)). intros scr.
  rewrite !filter_player_app, X6.
  destruct (1 >? to_uint8 (readFolderCounts card));
    repeat step_if; reflexivity.
Qed.

End PowerOn.

(** ** The battery mapping *)

Lemma constrain_mono (a b low high : Z) :
  low <= high -> a <= b -> constrain a low high <= constrain b low high.
Proof.
  intros Hlh Hab. unfold constrain.
  destruct (Z.ltb_spec a low), (Z.ltb_spec b low); try lia;
    destruct (Z.gtb_spec b high); try lia;
    destruct (Z.gtb_spec a high); lia.
Qed.

(** The percentage falls as the conversion result rises (the result is the
    1.1 V reference measured against the supply). *)
Theorem bat_percent_antitone (R1 R2 : Z) :
  1 <= R1 -> R1 <= R2 -> R2 <= 1023 ->
  bat_percent R2 <= bat_percent R1.
Proof.
  intros H1 H12 H2.
  rewrite (bat_percent_exact R1), (bat_percent_exact R2) by lia.
  apply Z.div_le_mono; [lia|].
  apply Z.sub_le_mono_r. apply constrain_mono; [lia|].
  apply Z.div_le_compat_l; lia.
Qed.

Lemma bat_percent_table :
  forallb (fun n =>
             let R := Z.of_nat n in
             Bool.eqb (bat_percent R =? 0) (351 <=? R)
             && Bool.eqb (bat_percent R <? 10) (343 <=? R)
             && Bool.eqb (bat_percent R =? 100) (R <=? 274))
          (seq 1 1023) = true.
Proof. vm_compute. reflexivity. Qed.

(** The thresholds of [getBatLevel] in conversion results from 1 to 1023:
    it returns 0 exactly from 351 on (the value at which [checkBatLevel]
    enters its wait), less than 10 exactly from 343 on (the values that keep
    it waiting), and 100 exactly up to 274. *)
Theorem getBatLevel_thresholds (R : Z) (rest : list Z) (s : State) :
  1 <= R <= 1023 ->
  ADC s = R :: rest ->
  exists p : Z,
    getBatLevel s = Some (p, set_ADC rest s) /\
    (p = 0 <-> 351 <= R) /\
    (p < 10 <-> 343 <= R) /\
    (p = 100 <-> R <= 274).
Proof.
  intros HR Hadc. exists (bat_percent R).
  split; [exact (getBatLevel_cons R rest s Hadc)|].
  pose proof bat_percent_table as T.
  rewrite forallb_forall in T.
  specialize (T (Z.to_nat R)).
  rewrite Z2Nat.id in T by lia.
  assert (Hin : In (Z.to_nat R) (seq 1 1023)).
  { apply in_seq. lia. }
  specialize (T Hin). cbv zeta in T.
  apply andb_true_iff in T. destruct T as [T T3].
  apply andb_true_iff in T. destruct T as [T1 T2].
  apply Bool.eqb_prop in T1, T2, T3.
  split; [|split].
  - rewrite <- Z.eqb_eq, T1, Z.leb_le. reflexivity.
  - rewrite <- Z.ltb_lt, T2, Z.leb_le. reflexivity.
  - rewrite <- Z.eqb_eq, T3, Z.leb_le. reflexivity.
Qed.

(** ** The denoised sample *)

Lemma sum_readings_between (lo hi : Z) (l : list Z) :
  Forall (fun v => lo <= v <= hi) l ->
  lo * Z.of_nat (length l) <= sum_readings l <= hi * Z.of_nat (length l).
Proof.
  induction 1 as [|v l Hv _ IH]; simpl sum_readings; simpl length.
  - lia.
  - rewrite Nat2Z.inj_succ. lia.
Qed.

Lemma denoise_rounds_short (n : nat) :
  forall (result : Z) (s : State),
    (length (ADC s) < n)%nat -> denoise_rounds n result s = None.
Proof.
  induction n as [|n IH]; intros result s Hlen; [lia|].
  simpl. unfold bind, sample_ADC.
  destruct (ADC s) as [|v rest] eqn:E; [reflexivity|].
  apply IH. cbn. simpl in Hlen. lia.
Qed.

Lemma denoiseAnalog_exact (port : Pin) (readings rest : list Z) (s : State) :
  length readings = 8%nat ->
  Forall (fun v => 0 <= v <= 1023) readings ->
  ADC s = readings ++ rest ->
  denoiseAnalog port s = Some (sum_readings readings / 8, set_ADC rest s).
Proof.
  intros Hlen Hall Hadc. unfold denoiseAnalog, bind.
  rewrite <- Hlen at 1.
  rewrite (denoise_rounds_exact readings 0 rest s Hall); try lia; auto.
  unfold ret. cbn [Z.add]. rewrite Z.shiftr_div_pow2 by lia. reflexivity.
Qed.

(** [denoiseAnalog] needs eight conversions; on eight 10-bit readings its
    result lies between the smallest and the largest of them, so it is a
    10-bit value again and a steady input is returned unchanged. *)
Theorem denoiseAnalog_between (port : Pin) (s : State) :
  ((length (ADC s) < 8)%nat -> denoiseAnalog port s = None) /\
  (forall (readings rest : list Z) (lo hi : Z),
     length readings = 8%nat ->
     0 <= lo -> hi <= 1023 ->
     Forall (fun v => lo <= v <= hi) readings ->
     ADC s = readings ++ rest ->
     exists v : Z,
       denoiseAnalog port s = Some (v, set_ADC rest s) /\ lo <= v <= hi).
Proof.
  split.
  - intros Hlen. unfold denoiseAnalog, bind.
    rewrite (denoise_rounds_short 8 0 s Hlen). reflexivity.
  - intros readings rest lo hi Hlen Hlo Hhi Hall Hadc.
    assert (Hall' : Forall (fun v => 0 <= v <= 1023) readings).
    { eapply Forall_impl; [|exact Hall]. cbn. intros. lia. }
    exists (sum_readings readings / 8).
    split; [exact (denoiseAnalog_exact port readings rest s Hlen Hall' Hadc)|].
    pose proof (sum_readings_between lo hi readings Hall) as Hs.
    rewrite Hlen in Hs. change (Z.of_nat 8) with 8 in Hs.
    split.
    + apply Z.div_le_lower_bound; lia.
    + apply Z.div_le_upper_bound; lia.
Qed.

(** ** The volume *)

(** Feeding the same denoised sample again changes nothing: a steady
    potentiometer causes no further command. *)
Theorem track_poti_idempotent (getpoti : Z) (s : State) :
  track_poti getpoti (track_poti getpoti s) = track_poti getpoti s.
Proof.
  destruct s as [fc foc bl vol fo fi pa bc lp ee adc pin tr].
  unfold track_poti; cbv zeta.
  unfold updateOLED, status_screen, emit.
  cbn [lastpoti volume set_lastpoti set_volume set_trace trace filecounts
       foldercounts batlevel folder file pause batcounter EEPROM ADC
       player_in].
  destruct (poti_moved lp getpoti) eqn:E1;
    cbn [lastpoti volume set_lastpoti set_volume set_trace trace filecounts
         foldercounts batlevel folder file pause batcounter EEPROM ADC
         player_in].
  - destruct (to_uint8 (getpoti / 34) =? vol) eqn:E2;
      cbn [negb lastpoti volume set_lastpoti set_volume set_trace trace
           filecounts foldercounts batlevel folder file pause batcounter
           EEPROM ADC player_in];
      destruct (poti_moved getpoti getpoti);
      cbn [negb lastpoti volume set_lastpoti set_volume set_trace trace
           filecounts foldercounts batlevel folder file pause batcounter
           EEPROM ADC player_in];
      rewrite ?E2, ?Z.eqb_refl; reflexivity.
  - destruct (to_uint8 (lp / 34) =? vol) eqn:E2;
      cbn [negb lastpoti volume set_lastpoti set_volume set_trace trace
           filecounts foldercounts batlevel folder file pause batcounter
           EEPROM ADC player_in];
      rewrite E1;
      cbn [negb lastpoti volume set_lastpoti set_volume set_trace trace
           filecounts foldercounts batlevel folder file pause batcounter
           EEPROM ADC player_in];
      rewrite ?E2, ?Z.eqb_refl; reflexivity.
Qed.

Lemma check_poti_run (readings rest : list Z) (s : State) :
  length readings = 8%nat ->
  Forall (fun v => 0 <= v <= 1023) readings ->
  ADC s = readings ++ rest ->
  check_poti s
  = Some (tt, track_poti (sum_readings readings / 8) (set_ADC rest s)).
Proof.
  intros Hlen Hall Hadc. unfold check_poti, bind.
  rewrite (denoiseAnalog_exact POTIPIN readings rest s Hlen Hall Hadc).
  reflexivity.
Qed.

(** "get, debounce and set volume" on eight 10-bit conversions, with a
    10-bit tracked value: the tracked value stays 10-bit, the volume
    afterwards is the tracked value divided by 34, between 0 and 30, and the
    decoder gets that volume (followed by a new frame) exactly when the
    volume changes, and nothing otherwise. *)
Theorem check_poti_volume (readings rest : list Z) (s : State) :
  length readings = 8%nat ->
  Forall (fun v => 0 <= v <= 1023) readings ->
  0 <= lastpoti s <= 1023 ->
  ADC s = readings ++ rest ->
  exists s' : State,
    check_poti s = Some (tt, s') /\
    ADC s' = rest /\
    0 <= lastpoti s' <= 1023 /\
    volume s' = lastpoti s' / 34 /\
    0 <= volume s' <= 30 /\
    issued s s'
    = (if volume s' =? volume s then []
       else [PlayerVolume (volume s'); OledFrame (status_screen s')]) /\
    folder s' = folder s /\ file s' = file s /\ pause s' = pause s.
Proof.
  intros Hlen Hall Hlp Hadc.
  rewrite (check_poti_run readings rest s Hlen Hall Hadc).
  eexists. split; [reflexivity|].
  pose proof (sum_readings_between 0 1023 readings Hall) as Hs.
  rewrite Hlen in Hs. change (Z.of_nat 8) with 8 in Hs.
  assert (Hv : 0 <= sum_readings readings / 8 <= 1023).
  { split; [apply Z.div_le_lower_bound|apply Z.div_le_upper_bound]; lia. }
  set (v := sum_readings readings / 8) in *. clearbody v.
  destruct s as [fc foc bl vol fo fi pa bc lp ee adc pin tr].
  cbn [lastpoti] in Hlp. unfold track_poti; cbv zeta.
  unfold updateOLED, status_screen, emit, issued.
  cbn [lastpoti volume set_lastpoti set_volume set_trace set_ADC trace
       filecounts foldercounts batlevel folder file pause batcounter
       EEPROM ADC player_in].
  destruct (poti_moved lp v);
    cbn [lastpoti volume set_lastpoti set_volume set_trace set_ADC trace
         filecounts foldercounts batlevel folder file pause batcounter
         EEPROM ADC player_in].
  - destruct (poti_volume_range v Hv) as [Hu Hrange]. rewrite Hu.
    destruct (Z.eqb_spec (v / 34) vol) as [E|E];
      cbn [negb lastpoti volume set_lastpoti set_volume set_trace set_ADC
           trace filecounts foldercounts batlevel folder file pause
           batcounter EEPROM ADC player_in].
    + rewrite skipn_all. subst vol. rewrite Z.eqb_refl.
      repeat split; try reflexivity; lia.
    + destruct (Z.eqb_spec (v / 34) vol); [contradiction|].
      rewrite <- app_assoc, skipn_app, skipn_all, Nat.sub_diag.
      repeat split; try reflexivity; lia.
  - destruct (poti_volume_range lp Hlp) as [Hu Hrange]. rewrite Hu.
    destruct (Z.eqb_spec (lp / 34) vol) as [E|E];
      cbn [negb lastpoti volume set_lastpoti set_volume set_trace set_ADC
           trace filecounts foldercounts batlevel folder file pause
           batcounter EEPROM ADC player_in].
    + rewrite skipn_all. subst vol. rewrite Z.eqb_refl.
      repeat split; try reflexivity; lia.
    + destruct (Z.eqb_spec (lp / 34) vol); [contradiction|].
      rewrite <- app_assoc, skipn_app, skipn_all, Nat.sub_diag.
      repeat split; try reflexivity; lia.
Qed.

(** ** A round of [loop] *)

Lemma track_poti_still (getpoti : Z) (s : State) :
  poti_moved (lastpoti s) getpoti = false ->
  volume s = to_uint8 (lastpoti s / 34) ->
  track_poti getpoti s = s.
Proof.
  intros Hm Hv. unfold track_poti; cbv zeta. rewrite Hm, <- Hv, Z.eqb_refl.
  reflexivity.
Qed.

(** A round of [loop] in which nothing happens (no finished track, the
    potentiometer within its hysteresis, the button rail idle, the battery
    counter not yet at 1) takes nine conversions, counts the battery counter
    down and sleeps; it sends nothing to the decoder, the display or the
    EEPROM. *)
Theorem loop_idle_round (card : DFPlayer) (readings : list Z) (b : Z)
        (rest : list Z) (s : State) :
  (forall v evs, player_in s <> Some (DFPlayerPlayFinished, v) :: evs) ->
  length readings = 8%nat ->
  Forall (fun v => 0 <= v <= 1023) readings ->
  ADC s = readings ++ b :: rest ->
  poti_moved (lastpoti s) (sum_readings readings / 8) = false ->
  volume s = to_uint8 (lastpoti s / 34) ->
  1000 <= b ->
  2 <= batcounter s <= 600 ->
  let s' := sleep (set_batcounter (batcounter s - 1)
                     (set_ADC rest (set_player_in (tl (player_in s)) s))) in
  loop card s = Some (tt, s') /\ issued s s' = [Sleep].
Proof.
  intros Hev Hlen Hall Hadc Hm Hv Hb Hbc s'.
  split; [|subst s'; unfold sleep, emit; apply issued_app; reflexivity].
  assert (Hcp : check_player card s = set_player_in (tl (player_in s)) s).
  { unfold check_player.
    destruct (player_in s) as [|[[[|code] v]|] evs] eqn:E; cbn [tl].
    - rewrite <- E. destruct s; reflexivity.
    - exfalso. exact (Hev v evs eq_refl).
    - reflexivity.
    - reflexivity. }
  unfold loop. rewrite bind_exec, Hcp.
  set (s1 := set_player_in (tl (player_in s)) s).
  unfold bind at 1.
  rewrite (check_poti_run readings (b :: rest) s1 Hlen Hall Hadc).
  rewrite (track_poti_still _ (set_ADC (b :: rest) s1) Hm Hv).
  unfold bind at 1.
  rewrite (check_buttons_idle card b rest (set_ADC (b :: rest) s1) Hb eq_refl).
  unfold bind at 1.
  rewrite check_battery_eq by (cbn; lia).
  cbn [batcounter set_ADC].
  destruct (Z.eqb_spec (batcounter s1) 1) as [E|E].
  - exfalso. subst s1. cbn in E. lia.
  - reflexivity.
Qed.

(** The states [firmware] returns are states of a run, at the top of
    [loop]. *)
Lemma loops_reach (card : DFPlayer) (n : nat) :
  forall s s', reach card LoopTop s -> loops card n s = Some (tt, s') ->
               reach card LoopTop s'.
Proof.
  induction n as [|n IH]; intros s s' Hr H; simpl in H.
  - unfold ret in H. injection H as <-. exact Hr.
  - unfold bind in H.
    destruct (loop card s) as [[[] s1]|] eqn:E; [|discriminate H].
    exact (IH s1 s' (loop_reach card s s1 Hr E) H).
Qed.

Lemma firmware_reach (card : DFPlayer) (n : nat) (eeprom : Z -> Z)
      (adc : list Z) (events : list (option (PlayerType * Z))) (s : State) :
  firmware card n (power_on eeprom adc events) = Some (tt, s) ->
  reach card LoopTop s.
Proof.
  unfold firmware, bind. intros H.
  destruct (setup card (power_on eeprom adc events)) as [[[] s0]|] eqn:E;
    [|discriminate H].
  exact (loops_reach card n s0 s (reach_setup card _ _ _ s0 E) H).
Qed.

(** ** The volume over a whole run *)

Lemma hoare_ret {A} (P : State -> Prop) (a : A) (Q : A -> State -> Prop) :
  (forall s, P s -> Q a s) -> hoare P (ret a) Q.
Proof.
  intros H s a' s' Hs E. unfold ret in E. injection E as <- <-. auto.
Qed.

Lemma hoare_exec (P : State -> Prop) (f : State -> State)
      (Q : unit -> State -> Prop) :
  (forall s, P s -> Q tt (f s)) -> hoare P (exec f) Q.
Proof.
  intros H s a s' Hs E. unfold exec in E. injection E as <- <-. auto.
Qed.

Lemma hoare_bind {A B} (P : State -> Prop) (m : M A)
      (Q : A -> State -> Prop) (k : A -> M B) (R : B -> State -> Prop) :
  hoare P m Q -> (forall a, hoare (Q a) (k a) R) -> hoare P (bind m k) R.
Proof.
  intros Hm Hk s b s' Hs E. unfold bind in E.
  destruct (m s) as [[a s1]|] eqn:Em; [|discriminate E].
  exact (Hk a s1 b s' (Hm s a s1 Hs Em) E).
Qed.

Lemma hoare_while (I : State -> Prop) (cond : M bool) (body : M unit) :
  hoare I cond (fun _ => I) ->
  hoare I body (fun _ => I) ->
  forall fuel, hoare I (while_fuel fuel cond body) (fun _ => I).
Proof.
  intros Hc Hb fuel. induction fuel as [|n IH]; intros s a s' Hs E.
  - discriminate E.
  - rewrite while_fuel_S in E.
    destruct (cond s) as [[[|] s1]|] eqn:Ec; [| |discriminate E].
    + destruct (body s1) as [[u s2]|] eqn:Eb; [|discriminate E].
      exact (IH s2 a s' (Hb s1 u s2 (Hc s true s1 Hs Ec) Eb) E).
    + injection E as _ <-. exact (Hc s false s1 Hs Ec).
Qed.

Lemma hoare_forever {A} (P : State -> Prop) (Q : A -> State -> Prop) :
  hoare P forever Q.
Proof. intros s a s' _ E. discriminate E. Qed.

(** [volume_inv] only looks at four fields. *)
Lemma volume_inv_frame (s t : State) (cmds : list Command) :
  ADC t = ADC s -> lastpoti t = lastpoti s -> volume t = volume s ->
  trace t = trace s ++ cmds ->
  Forall volume_in_range cmds ->
  volume_inv s -> volume_inv t.
Proof.
  unfold volume_inv, adc_10bit. intros -> -> -> -> Hc (H1 & H2 & H3 & H4).
  repeat split; try assumption; try lia.
  apply Forall_app. split; assumption.
Qed.

Lemma volume_inv_same (s t : State) :
  ADC t = ADC s -> lastpoti t = lastpoti s -> volume t = volume s ->
  trace t = trace s ->
  volume_inv s -> volume_inv t.
Proof.
  intros E1 E2 E3 E4. apply (volume_inv_frame s t []); auto.
  rewrite app_nil_r. exact E4.
Qed.

Lemma volume_inv_emit (c : Command) (s : State) :
  volume_in_range c -> volume_inv s -> volume_inv (emit c s).
Proof.
  intros Hc. apply (volume_inv_frame s (emit c s) [c]); auto.
Qed.

Lemma hoare_sample_ADC :
  hoare volume_inv sample_ADC (fun v s => 0 <= v <= 1023 /\ volume_inv s).
Proof.
  intros s v s' (H1 & H2 & H3 & H4) E.
  apply sample_ADC_inv in E. destruct E as [E1 E2].
  unfold adc_10bit in H1. rewrite E1 in H1.
  inversion H1 as [|x l Hv Hrest Ex]. clear Ex.
  split; [exact Hv|]. rewrite E2. unfold volume_inv, adc_10bit.
  cbn [ADC lastpoti volume trace set_ADC].
  split; [exact Hrest|]. split; [exact H2|]. split; [exact H3|exact H4].
Qed.

Lemma hoare_getAnalog (port : Pin) :
  hoare volume_inv (getAnalog port) (fun _ => volume_inv).
Proof.
  unfold getAnalog. eapply hoare_bind; [exact hoare_sample_ADC|].
  intros v. apply hoare_ret. intros s [_ H]. exact H.
Qed.

Lemma hoare_getBatLevel :
  hoare volume_inv getBatLevel (fun _ => volume_inv).
Proof.
  unfold getBatLevel. eapply hoare_bind; [exact hoare_sample_ADC|].
  intros v. cbv zeta. apply hoare_ret. intros s [_ H]. exact H.
Qed.

Lemma hoare_denoise_rounds (n : nat) :
  forall result,
    0 <= result ->
    hoare volume_inv (denoise_rounds n result)
          (fun v s => 0 <= v <= result + 1023 * Z.of_nat n /\ volume_inv s).
Proof.
  induction n as [|n IH]; intros result Hres.
  - simpl. apply hoare_ret. intros s H. split; [lia|exact H].
  - simpl denoise_rounds.
    eapply hoare_bind; [exact hoare_sample_ADC|].
    intros v s a s' [Hv Hs] E.
    pose proof (Z.mod_pos_bound (result + v) 65536 ltac:(lia)) as Hm.
    assert (Hle : to_uint16 (result + v) <= result + v).
    { unfold to_uint16. apply Z.mod_le; lia. }
    destruct (IH (to_uint16 (result + v)) ltac:(unfold to_uint16; lia)
                 s a s' Hs E) as [Ha Hs'].
    split; [|exact Hs']. rewrite Nat2Z.inj_succ. lia.
Qed.

Lemma hoare_denoiseAnalog (port : Pin) :
  hoare volume_inv (denoiseAnalog port)
        (fun v s => 0 <= v <= 1023 /\ volume_inv s).
Proof.
  unfold denoiseAnalog.
  eapply hoare_bind; [exact (hoare_denoise_rounds 8 0 ltac:(lia))|].
  intros a. apply hoare_ret. intros s [Ha Hs]. split; [|exact Hs].
  rewrite Z.shiftr_div_pow2 by lia. change (2 ^ 3) with 8.
  change (Z.of_nat 8) with 8 in Ha.
  split; [apply Z.div_pos; lia|apply Z.div_le_upper_bound; lia].
Qed.

Lemma track_poti_volume_inv (getpoti : Z) (s : State) :
  0 <= getpoti <= 1023 -> volume_inv s -> volume_inv (track_poti getpoti s).
Proof.
  intros Hg (H1 & H2 & H3 & H4).
  destruct s as [fc foc bl vol fo fi pa bc lp ee adc pin tr].
  unfold volume_inv, adc_10bit, track_poti in *; cbv zeta.
  unfold updateOLED, status_screen, emit.
  cbn [lastpoti volume set_lastpoti set_volume set_trace trace filecounts
       foldercounts batlevel folder file pause batcounter EEPROM ADC
       player_in] in *.
  destruct (poti_moved lp getpoti);
    cbn [lastpoti volume set_lastpoti set_volume set_trace trace filecounts
         foldercounts batlevel folder file pause batcounter EEPROM ADC
         player_in].
  - destruct (poti_volume_range getpoti Hg) as [Hu Hr]. rewrite Hu.
    destruct (negb (getpoti / 34 =? vol));
      cbn [lastpoti volume set_lastpoti set_volume set_trace trace ADC].
    + repeat split; try assumption; try lia.
      rewrite <- app_assoc. apply Forall_app. split; [assumption|].
      repeat constructor; cbn; lia.
    + repeat split; try assumption; lia.
  - destruct (poti_volume_range lp H2) as [Hu Hr]. rewrite Hu.
    destruct (negb (lp / 34 =? vol));
      cbn [lastpoti volume set_lastpoti set_volume set_trace trace ADC].
    + repeat split; try assumption; try lia.
      rewrite <- app_assoc. apply Forall_app. split; [assumption|].
      repeat constructor; cbn; lia.
    + repeat split; try assumption; lia.
Qed.

Lemma hoare_check_poti :
  hoare volume_inv check_poti (fun _ => volume_inv).
Proof.
  unfold check_poti.
  eapply hoare_bind; [exact (hoare_denoiseAnalog POTIPIN)|].
  intros v. apply hoare_exec. intros s [Hv Hs].
  apply track_poti_volume_inv; assumption.
Qed.

Lemma hoare_checkBatLevel :
  hoare volume_inv checkBatLevel (fun _ => volume_inv).
Proof.
  unfold checkBatLevel.
  eapply hoare_bind; [exact hoare_getBatLevel|]. intros level.
  eapply hoare_bind with (Q := fun _ => volume_inv).
  { apply hoare_exec. intros s. apply volume_inv_same; reflexivity. }
  intros ?u; cbv beta.
  eapply hoare_bind with (Q := fun _ => volume_inv).
  { destruct (level =? 0).
    - eapply hoare_bind with (Q := fun _ => volume_inv).
      { apply hoare_exec. intros s. apply volume_inv_emit. exact I. }
      intros ?u; cbv beta.
      eapply hoare_bind with (Q := fun _ => volume_inv).
      { apply hoare_exec. intros s. apply volume_inv_emit. exact I. }
      intros ?u; cbv beta.
      eapply hoare_bind with (Q := fun _ => volume_inv).
      { apply hoare_exec. intros s Hs. destruct (negb (pause s)); auto.
        apply volume_inv_emit; [exact I|exact Hs]. }
      intros ?u; cbv beta.
      eapply hoare_bind with (Q := fun _ => volume_inv).
      { intros s a s' Hs E. unfold while_adc in E. revert Hs E.
        apply hoare_while.
        - eapply hoare_bind; [exact hoare_getBatLevel|].
          intros l. apply hoare_ret. auto.
        - apply hoare_exec. intros t. apply volume_inv_emit. exact I. }
      intros ?u; cbv beta.
      eapply hoare_bind with (Q := fun _ => volume_inv).
      { apply hoare_exec. intros s. apply volume_inv_emit. exact I. }
      intros ?u; cbv beta.
      eapply hoare_bind; [exact hoare_getBatLevel|]. intros l.
      eapply hoare_bind with (Q := fun _ => volume_inv).
      { apply hoare_exec. intros s. apply volume_inv_same; reflexivity. }
      intros ?u; cbv beta.
      apply hoare_exec. intros s Hs. destruct (negb (pause s)); auto.
      apply volume_inv_emit; [exact I|exact Hs].
    - apply hoare_ret. auto. }
  intros ?u; cbv beta.
  eapply hoare_bind with (Q := fun _ => volume_inv).
  { apply hoare_exec. intros s. unfold updateOLED.
    apply volume_inv_emit. exact I. }
  intros ?u; cbv beta. apply hoare_exec. intros s. apply volume_inv_same; reflexivity.
Qed.

Section VolumeRuns.

Variable card : DFPlayer.

Lemma startFolderPlay_volume_inv (s : State) :
  volume_inv s -> volume_inv (startFolderPlay card s).
Proof.
  pose proof (startFolderPlay_trace card s) as Ht. cbv zeta in Ht.
  eapply volume_inv_frame.
  - apply startFolderPlay_ADC.
  - apply startFolderPlay_lastpoti.
  - apply startFolderPlay_volume.
  - exact Ht.
  - generalize (startFolderPlay card s). intros t.
    repeat step_if; repeat constructor.
Qed.

Lemma handle_volume_inv (e : ButtonEvent) (s : State) :
  volume_inv s -> volume_inv (handle card e s).
Proof.
  intros Hs. destruct e; cbn [handle].
  - unfold press_prev; cbv zeta. apply startFolderPlay_volume_inv.
    unfold refresh_filecounts, emit.
    destruct (folder s <? foldercounts s).
    + apply (volume_inv_frame s _
               [PlayerReadFileCountsInFolder (to_uint8 (folder s + 1))]);
        try reflexivity; [repeat constructor|exact Hs].
    + apply (volume_inv_frame s _ [PlayerReadFileCountsInFolder 1]);
        try reflexivity; [repeat constructor|exact Hs].
  - unfold press_next. apply startFolderPlay_volume_inv.
    revert Hs. apply volume_inv_same; reflexivity.
  - unfold press_ok; cbv zeta. unfold updateOLED.
    apply volume_inv_emit; [exact I|].
    destruct (negb (pause s)) eqn:E; cbn [pause set_pause];
      (apply volume_inv_emit; [exact I|]);
      revert Hs; apply volume_inv_same; reflexivity.
  - exact Hs.
Qed.

Lemma check_player_volume_inv (s : State) :
  volume_inv s -> volume_inv (check_player card s).
Proof.
  intros Hs. unfold check_player.
  destruct (player_in s) as [|[[[|code] value]|] rest]; try exact Hs.
  unfold track_finished. apply startFolderPlay_volume_inv.
  revert Hs. apply volume_inv_same; reflexivity.
Qed.

Lemma hoare_check_buttons :
  hoare volume_inv (check_buttons card) (fun _ => volume_inv).
Proof.
  unfold check_buttons.
  eapply hoare_bind; [exact (hoare_getAnalog BUTTONS)|]. intros b.
  destruct (b <? 1000); [|apply hoare_ret; auto].
  eapply hoare_bind with (Q := fun _ => volume_inv).
  { apply hoare_exec. intros s Hs. rewrite dispatch_buttons_event.
    apply handle_volume_inv. exact Hs. }
  intros ?u s a s' Hs E. unfold while_adc in E. revert Hs E.
  apply hoare_while.
  - eapply hoare_bind; [exact (hoare_getAnalog BUTTONS)|].
    intros l. apply hoare_ret. auto.
  - apply hoare_ret. auto.
Qed.

Lemma hoare_check_battery :
  hoare volume_inv check_battery (fun _ => volume_inv).
Proof.
  unfold check_battery.
  eapply hoare_bind with (Q := fun _ => volume_inv).
  { apply hoare_exec. intros s. apply volume_inv_same; reflexivity. }
  intros ?u; cbv beta.
  eapply hoare_bind with (Q := fun _ => volume_inv).
  { intros s a s' Hs E. unfold gets in E. injection E as _ <-. exact Hs. }
  intros c. destruct (c =? 0); [exact hoare_checkBatLevel|].
  apply hoare_ret. auto.
Qed.

Lemma hoare_loop : hoare volume_inv (loop card) (fun _ => volume_inv).
Proof.
  unfold loop.
  eapply hoare_bind with (Q := fun _ => volume_inv).
  { apply hoare_exec. intros s. apply check_player_volume_inv. }
  intros ?u; cbv beta. eapply hoare_bind; [exact hoare_check_poti|].
  intros ?u; cbv beta. eapply hoare_bind; [exact hoare_check_buttons|].
  intros ?u; cbv beta. eapply hoare_bind; [exact hoare_check_battery|].
  intros ?u; cbv beta. apply hoare_exec. intros s. apply volume_inv_emit. exact I.
Qed.

Lemma hoare_loops (n : nat) :
  hoare volume_inv (loops card n) (fun _ => volume_inv).
Proof.
  induction n as [|n IH]; simpl.
  - apply hoare_ret. auto.
  - eapply hoare_bind; [exact hoare_loop|]. intros ?u; cbv beta. exact IH.
Qed.

Lemma hoare_setup : hoare volume_inv (setup card) (fun _ => volume_inv).
Proof.
  unfold setup.
  eapply hoare_bind with (Q := fun _ => volume_inv).
  { apply hoare_exec. intros s. apply volume_inv_emit. exact I. }
  intros ?u; cbv beta.
  eapply hoare_bind with (Q := fun _ => volume_inv).
  { apply hoare_exec. intros s. apply volume_inv_emit. exact I. }
  intros ?u; cbv beta.
  destruct (negb (begin_ok card)).
  - eapply hoare_bind with (Q := fun _ => volume_inv).
    { apply hoare_exec. intros s. apply volume_inv_emit. exact I. }
    intros ?u; cbv beta.
    eapply hoare_bind with (Q := fun _ => volume_inv).
    { apply hoare_exec. intros s. apply volume_inv_emit. exact I. }
    intros ?u; cbv beta.
    eapply hoare_bind with (Q := fun _ => volume_inv).
    { apply hoare_exec. intros s. apply volume_inv_emit. exact I. }
    intros ?u; cbv beta. apply hoare_forever.
  - eapply hoare_bind; [exact hoare_checkBatLevel|]. intros ?u; cbv beta.
    eapply hoare_bind with (Q := fun _ => volume_inv).
    { apply hoare_exec. intros s Hs.
      destruct (EEPROM_read 0 s =? 55).
      - revert Hs. apply volume_inv_same; reflexivity.
      - unfold EEPROM_write. apply volume_inv_emit; [exact I|].
        revert Hs. apply volume_inv_same; reflexivity. }
    intros ?u; cbv beta.
    eapply hoare_bind with (Q := fun _ => volume_inv).
    { apply hoare_exec. intros s. apply volume_inv_emit. exact I. }
    intros ?u; cbv beta.
    eapply hoare_bind with (Q := fun _ => volume_inv).
    { apply hoare_exec. intros s Hs. apply volume_inv_emit; [|exact Hs].
      destruct Hs as (_ & _ & Hv & _). exact Hv. }
    intros ?u; cbv beta.
    eapply hoare_bind with (Q := fun _ => volume_inv).
    { apply hoare_exec. intros s Hs.
      apply (volume_inv_same (emit PlayerReadFolderCounts s));
        try reflexivity.
      apply volume_inv_emit; [exact I|exact Hs]. }
    intros ?u; cbv beta.
    eapply hoare_bind with (Q := fun _ => volume_inv).
    { apply hoare_exec. intros s Hs. unfold refresh_filecounts.
      apply (volume_inv_same
               (emit (PlayerReadFileCountsInFolder (folder s)) s));
        try reflexivity.
      apply volume_inv_emit; [exact I|exact Hs]. }
    intros ?u; cbv beta.
    apply hoare_exec. intros s. apply startFolderPlay_volume_inv.
Qed.

(** In a run on 10-bit conversions (setup and any number of rounds of loop)
    every volume sent to the decoder is between 0 and 30, and so is the
    volume variable; the tracked potentiometer value stays a 10-bit value. *)
Theorem firmware_volume_in_range (n : nat) (eeprom : Z -> Z) (adc : list Z)
        (events : list (option (PlayerType * Z))) (s : State) :
  Forall (fun v => 0 <= v <= 1023) adc ->
  firmware card n (power_on eeprom adc events) = Some (tt, s) ->
  Forall volume_in_range (trace s) /\
  0 <= volume s <= 30 /\
  0 <= lastpoti s <= 1023.
Proof.
  intros Hadc Hrun.
  assert (H0 : volume_inv (power_on eeprom adc events)).
  { unfold volume_inv, adc_10bit. cbn. repeat split; try lia; auto. }
  assert (H : hoare volume_inv (firmware card n) (fun _ => volume_inv)).
  { unfold firmware. eapply hoare_bind; [exact hoare_setup|].
    intros ?u; cbv beta. apply hoare_loops. }
  destruct (H _ _ _ H0 Hrun) as (_ & H2 & H3 & H4).
  repeat split; try assumption; lia.
Qed.

End VolumeRuns.

(** ** The text of the status frame *)

Lemma printDigits_table :
  forallb (fun n => Nat.eqb (String.length (Display.printDigits (Z.of_nat n)))
                            3)
          (seq 0 256) = true.
Proof. vm_compute. reflexivity. Qed.

Lemma printDigits_three (d : Z) :
  0 <= d <= 255 -> String.length (Display.printDigits d) = 3%nat.
Proof.
  intros Hd. pose proof printDigits_table as T.
  rewrite forallb_forall in T. specialize (T (Z.to_nat d)).
  rewrite Z2Nat.id in T by lia.
  apply Nat.eqb_eq. apply T. apply in_seq. lia.
Qed.

Lemma string_length_append (a b : String.string) :
  String.length (String.append a b)
  = (String.length a + String.length b)%nat.
Proof.
  induction a as [|c a IH]; simpl; [reflexivity|]. rewrite IH. reflexivity.
Qed.

(** [printDigits] prints exactly three characters for every byte, so the
    status frame has a fixed layout: the three upper rows are as wide as the
    header (21 characters), the battery field is 8 characters wide and the
    field to its right 10 characters, whether it shows the pause text or the
    volume. *)
Theorem updateOLED_text_widths (s : State) :
  0 <= folder s <= 255 -> 0 <= foldercounts s <= 255 ->
  0 <= file s <= 255 -> 0 <= filecounts s <= 255 ->
  0 <= batlevel s <= 255 -> 0 <= volume s <= 255 ->
  String.length (Display.printDigits (volume s)) = 3%nat /\
  map (fun line => (fst (fst line), snd (fst line), String.length (snd line)))
      (Display.updateOLED_text s)
  = [(0, 0, 21%nat); (0, 1, 21%nat); (0, 2, 21%nat); (0, 3, 8%nat);
     (66, 3, 10%nat)].
Proof.
  intros H1 H2 H3 H4 H5 H6.
  pose proof (printDigits_three (folder s) H1) as L1.
  pose proof (printDigits_three (foldercounts s) H2) as L2.
  pose proof (printDigits_three (file s) H3) as L3.
  pose proof (printDigits_three (filecounts s) H4) as L4.
  pose proof (printDigits_three (batlevel s) H5) as L5.
  pose proof (printDigits_three (volume s) H6) as L6.
  split; [exact L6|].
  unfold Display.updateOLED_text, Display.printBatLevel.
  cbn [map fst snd].
  rewrite !string_length_append, L1, L2, L3, L4, L5.
  destruct (pause s).
  - reflexivity.
  - rewrite !string_length_append, L6. reflexivity.
Qed.

(** ** The further properties at concrete inputs *)

Lemma check_buttons_debounce_witness :
  let s := set_ADC [790; 790; 552; 100; 1023; 7]
                   (set_foldercounts 3 boot_blank) in
  check_buttons card_three s
  = Some (tt, set_ADC [7] (handle card_three (button_event 790) s)).
Proof.
  intros s.
  exact (proj2 (proj2 (check_buttons_debounce card_three 790 [790; 552; 100] s
                         ltac:(repeat constructor)))
               1023 [7] ltac:(lia) ltac:(lia) eq_refl).
Defined.

Lemma press_next_steps_witness :
  let s := set_filecounts 5 (set_foldercounts 3 (set_file 5 boot_blank)) in
  file (press_next card_three s) = 1 /\
  folder (press_next card_three s) = 1.
Proof.
  intros s.
  destruct (press_next_steps card_three s
              ltac:(cbn; lia) ltac:(cbn; lia) ltac:(cbn; lia))
    as (_ & H1 & H2 & _).
  split; [rewrite H1|rewrite H2]; reflexivity.
Defined.

Lemma press_prev_steps_witness :
  let s := set_folder 3 (set_foldercounts 3 boot_blank) in
  folder (press_prev card_three s) = 1 /\
  file (press_prev card_three s) = 1.
Proof.
  intros s.
  destruct (press_prev_steps card_three s ltac:(cbn; lia) ltac:(cbn; lia))
    as (H1 & H2 & _).
  split; [rewrite H1; reflexivity|exact H2].
Defined.


Lemma run_invariant_witness : run_inv card_full loop_top_255.
Proof.
  exact (run_invariant card_full LoopTop loop_top_255 loop_top_255_reach).
Defined.

Lemma batcounter_invariant_witness : 1 <= batcounter loop_top_255 <= 600.
Proof.
  exact (proj1 (batcounter_invariant card_full LoopTop loop_top_255
                  loop_top_255_reach)).
Defined.


Lemma first_boot_witness :
  exists s' : State,
    setup card_three (power_on eeprom_blank [300; 7] []) = Some (tt, s') /\
    folder s' = 1 /\ file s' = 1 /\
    EEPROM_read 0 s' = 55 /\ EEPROM_read 1 s' = 1 /\ EEPROM_read 2 s' = 1.
Proof.
  destruct (first_boot card_three eeprom_blank 300 [7] []
              eq_refl
              ltac:(vm_compute; discriminate)
              ltac:(vm_compute; discriminate))
    as (s' & H1 & H2 & H3 & _ & H5 & H6 & H7 & _).
  exists s'. repeat split; assumption.
Defined.

Lemma bat_percent_antitone_witness : bat_percent 352 <= bat_percent 300.
Proof.
  exact (bat_percent_antitone 300 352 ltac:(lia) ltac:(lia) ltac:(lia)).
Defined.

Lemma getBatLevel_thresholds_witness :
  exists p : Z,
    getBatLevel (power_on eeprom_blank [351; 7] [])
    = Some (p, set_ADC [7] (power_on eeprom_blank [351; 7] [])) /\
    (p = 0 <-> 351 <= 351) /\
    (p < 10 <-> 343 <= 351) /\
    (p = 100 <-> 351 <= 274).
Proof.
  exact (getBatLevel_thresholds 351 [7] (power_on eeprom_blank [351; 7] [])
           ltac:(lia) eq_refl).
Defined.

Lemma denoiseAnalog_between_witness :
  let s := power_on eeprom_blank [500; 501; 502; 503; 504; 505; 506; 507; 7]
                    [] in
  exists v : Z,
    denoiseAnalog POTIPIN s = Some (v, set_ADC [7] s) /\ 500 <= v <= 507.
Proof.
  intros s.
  exact (proj2 (denoiseAnalog_between POTIPIN s)
               [500; 501; 502; 503; 504; 505; 506; 507] [7] 500 507
               eq_refl ltac:(lia) ltac:(lia)
               ltac:(repeat constructor; lia)
               eq_refl).
Defined.

Lemma check_poti_volume_witness :
  let s := power_on eeprom_blank [680; 680; 680; 680; 680; 680; 680; 680; 7]
                    [] in
  exists s' : State,
    check_poti s = Some (tt, s') /\ ADC s' = [7] /\ volume s' = 20 /\
    lastpoti s' = 680.
Proof.
  intros s.
  destruct (check_poti_volume [680; 680; 680; 680; 680; 680; 680; 680] [7] s
              eq_refl ltac:(repeat constructor; lia) ltac:(cbn; lia) eq_refl)
    as (s' & H1 & H2 & _).
  exists s'. split; [exact H1|]. split; [exact H2|].
  assert (E : Some (tt, s') = Some (tt, run check_poti s)).
  { rewrite <- H1. vm_compute. reflexivity. }
  injection E as ->. split; vm_compute; reflexivity.
Defined.

Lemma loop_idle_round_witness :
  let s := set_batcounter 600
             (set_lastpoti 680
                (power_on eeprom_blank
                   [680; 681; 679; 680; 682; 678; 680; 680; 1023; 7] [])) in
  issued s (sleep (set_batcounter 599 (set_ADC [7] s))) = [Sleep] /\
  loop card_three s
  = Some (tt, sleep (set_batcounter (batcounter s - 1)
                       (set_ADC [7] (set_player_in (tl (player_in s)) s)))).
Proof.
  intros s.
  destruct (loop_idle_round card_three
              [680; 681; 679; 680; 682; 678; 680; 680] 1023 [7] s
              ltac:(intros v evs; cbn; discriminate)
              eq_refl
              ltac:(repeat constructor; lia)
              eq_refl
              ltac:(vm_compute; reflexivity)
              ltac:(vm_compute; reflexivity)
              ltac:(lia)
              ltac:(cbn; lia))
    as [H1 H2].
  split; [vm_compute; reflexivity|exact H1].
Defined.

Lemma firmware_volume_in_range_witness :
  firmware card_three 2 boot_poti
  = Some (tt, run (firmware card_three 2) boot_poti) /\
  Forall volume_in_range (trace (run (firmware card_three 2) boot_poti)) /\
  In (PlayerVolume 0) (trace (run (firmware card_three 2) boot_poti)).
Proof.
  assert (Hrun : firmware card_three 2 boot_poti
                 = Some (tt, run (firmware card_three 2) boot_poti)).
  { vm_compute. reflexivity. }
  split; [exact Hrun|]. split.
  - exact (proj1 (firmware_volume_in_range card_three 2 eeprom_blank
                    [300; 5; 5; 5; 5; 5; 5; 5; 5; 1023;
                     6; 6; 6; 6; 6; 6; 6; 6; 1023]
                    [] (run (firmware card_three 2) boot_poti)
                    ltac:(repeat constructor; lia)
                    Hrun)).
  - vm_compute. tauto.
Defined.

Lemma updateOLED_text_widths_witness :
  map (fun line => (fst (fst line), snd (fst line), String.length (snd line)))
      (Display.updateOLED_text loop_top_255)
  = [(0, 0, 21%nat); (0, 1, 21%nat); (0, 2, 21%nat); (0, 3, 8%nat);
     (66, 3, 10%nat)].
Proof.
  exact (proj2 (updateOLED_text_widths loop_top_255
                  ltac:(vm_compute; split; discriminate)
                  ltac:(vm_compute; split; discriminate)
                  ltac:(vm_compute; split; discriminate)
                  ltac:(vm_compute; split; discriminate)
                  ltac:(vm_compute; split; discriminate)
                  ltac:(vm_compute; split; discriminate))).
Defined.
